(** * torch-kalman: the filter orchestrator and the process base class

    A shallow embedding of [torch_kalman/kalman_filter.py] (class
    [KalmanFilter]) and [torch_kalman/process/base.py] (class [Process]),
    with the properties of the specification stated and proved over it.

    The state-belief family, the design and the design matrices are
    collaborators of these two modules: they appear here as interfaces
    (type classes and records of operations), and, where a concrete instance
    is needed to run the code on an input, as a small model written from
    the specification. *)

From Stdlib Require Import QArith ZArith Lia.
From stdpp Require Import base option list gmap strings.

Set Default Proof Using "Type".
Open Scope string_scope.
Open Scope list_scope.
Open Scope nat_scope.

(** ** Exceptions and the result of a call *)

Module Py.

(** The Python exception classes raised by the two modules. *)
Inductive exn_class :=
| ValueError
| TypeError
| AssertionError
| IndexError
| AttributeError
| NotImplementedError
| RuntimeError
| Exception.

(** One constructor per [raise] site, carrying what the message
    interpolates; [External] is an exception that comes out of a
    collaborator and passes through unchanged. *)
Inductive exn :=
| MeasureSizeMismatch (measure_size : nat) (shape : nat * nat * nat)
| HorizonAssertion
| SmoothNotImplemented
| NoMeasures (id : string)
| NoTransitions (id : string)
| DuplicateStateElements
| FixedAlsoDynamic
| ForBatchKwargsNotExplicit (cls_name : string)
| InitMeanKwargsNotExplicit (cls_name : string)
| SignatureMismatch (cls_name : string)
| DuplicateAssignment (row col : string)
| OutOfRange (index : nat)
| NoSuchObject (address : positive)
| NotCallable
| External (message : string).

Definition class_of (e : exn) : exn_class :=
  match e with
  | MeasureSizeMismatch _ _ => ValueError
  | HorizonAssertion => AssertionError
  | SmoothNotImplemented => NotImplementedError
  | NoMeasures _ => TypeError
  | NoTransitions _ => TypeError
  | DuplicateStateElements => ValueError
  | FixedAlsoDynamic => ValueError
  | ForBatchKwargsNotExplicit _ => TypeError
  | InitMeanKwargsNotExplicit _ => TypeError
  | SignatureMismatch _ => TypeError
  | DuplicateAssignment _ _ => Exception
  | OutOfRange _ => IndexError
  | NoSuchObject _ => AttributeError
  | NotCallable => TypeError
  | External _ => Exception
  end.

(** The error kinds of the specification: a structural error is one about
    how a process is configured or declared. *)
Definition structural (e : exn) : bool :=
  match e with
  | NoMeasures _ | NoTransitions _ | DuplicateStateElements | FixedAlsoDynamic
  | ForBatchKwargsNotExplicit _ | InitMeanKwargsNotExplicit _ | SignatureMismatch _ => true
  | _ => false
  end.

Inductive result (A : Type) :=
| Ok (a : A)
| Raise (e : exn).
Arguments Ok {A} a.
Arguments Raise {A} e.

#[global] Instance result_ret : MRet result := fun A a => Ok a.
#[global] Instance result_bind : MBind result := fun A B f m =>
  match m with
  | Ok a => f a
  | Raise e => Raise e
  end.

(** What a call into a collaborator (the design, the beliefs over time)
    comes back with: a value, or the message of an exception of its own. *)
Definition call {A} (r : string + A) : result A :=
  match r with
  | inl message => Raise (External message)
  | inr a => Ok a
  end.

(** [xs[i]] on a Python list or a tensor's leading dimension, for [i >= 0]. *)
Definition getitem {A} (xs : list A) (i : nat) : result A :=
  match xs !! i with
  | Some x => Ok x
  | None => Raise (OutOfRange i)
  end.

End Py.
Export Py.

(** ** Tensors of rank three *)

(** The input of the filter: [shape] is [(groups, timesteps, measures)] and
    [data] is indexed [group][timestep][measure]. *)
Record Tensor (val : Type) := {
  shape : nat * nat * nat;
  data : list (list (list val))
}.
Arguments shape {val} _.
Arguments data {val} _.

(** [data] has the extent [shape] announces in every dimension. *)
Definition well_shaped {val} (x : Tensor val) : Prop :=
  let '(g, t, m) := shape x in
  length (data x) = g ∧
  Forall (fun grp => length grp = t ∧ Forall (fun row => length row = m) grp) (data x).

(** [input[:, t, :]]: for every group, its row of measures at timestep [t]. *)
Definition select_time {val} (input : Tensor val) (t : nat) : list (list val) :=
  (fun grp => default [] (grp !! t)) <$> data input.

(** The same with the check of the index against the extent of the second
    dimension, for [t >= 0]. *)
Definition getslice {val} (input : Tensor val) (t : nat) : result (list (list val)) :=
  if (t <? (shape input).1.2)%nat then Ok (select_time input t) else Raise (OutOfRange t).

(** ** Keyword arguments *)

Abbreviation datetimes := (list Z).

(** What a [for] loop gets out of an iterable: the items it yields, in
    order, and, when the iteration ends in an exception and not by
    exhaustion, the message of that exception. *)
Record iteration := {
  yielded : list nat;
  raised : option string
}.

(** The values a keyword argument holds: a tensor, an array of datetimes,
    a boolean, [None], or a callable. Of a callable only its use as a
    progress wrapper is modelled: [f r] is what iterating [f(r)] gives, or
    the message of the exception that the call itself raises. *)
Inductive kwarg (val : Type) :=
| KwTensor (x : Tensor val)
| KwDatetimes (d : datetimes)
| KwBool (b : bool)
| KwNone
| KwCallable (f : list nat → string + iteration).
Arguments KwTensor {val} x.
Arguments KwDatetimes {val} d.
Arguments KwBool {val} b.
Arguments KwNone {val}.
Arguments KwCallable {val} f.

Abbreviation kwargs val := (gmap string (kwarg val)).

(** [bool(x)] of a tensor and of an array, operations of the tensor
    libraries: the truth value, or the message of the exception raised
    (as for a tensor of several elements). *)
Class TruthValue (val : Type) := {
  bool_of_tensor : Tensor val → string + bool;
  bool_of_array : datetimes → string + bool
}.

(** What [prog] is bound to before the loop: [identity], [tqdm], a
    callable handed in by the caller, or a value that is true and cannot be
    called. *)
Inductive progress :=
| identity
| tqdm
| wrapper (f : list nat → string + iteration)
| uncallable.

(** [prog = kwargs.get('progress', identity) or identity], then [tqdm] when
    [prog is True]. The [or] asks the value for its truth: a false one
    gives way to [identity], and the question itself may raise. A class or
    function is true. *)
Definition select_progress {val} `{!TruthValue val} (kw : kwargs val) : result progress :=
  match kw !! "progress" with
  | None => Ok identity
  | Some (KwBool true) => Ok tqdm
  | Some (KwBool false) => Ok identity
  | Some KwNone => Ok identity
  | Some (KwCallable f) => Ok (wrapper f)
  | Some (KwTensor x) =>
      truth ← call (bool_of_tensor x);
      Ok (if truth : bool then uncallable else identity)
  | Some (KwDatetimes d) =>
      truth ← call (bool_of_array d);
      Ok (if truth : bool then uncallable else identity)
  end.

(** [iterator = prog(r)]: [identity] and [tqdm] yield the items of [r] in
    order and stop, a callable does what it does, and a call of what cannot
    be called raises. *)
Definition iterate (prog : progress) (r : list nat) : result iteration :=
  match prog with
  | identity => Ok {| yielded := r; raised := None |}
  | tqdm => Ok {| yielded := r; raised := None |}
  | wrapper f => call (f r)
  | uncallable => Raise NotCallable
  end.

(** The end of a [for] loop over [iterator]: the iteration is exhausted, or
    it raises once the loop body ran on every item it yielded. *)
Definition exhaust (iterator : iteration) : result unit :=
  match raised iterator with
  | None => Ok ()
  | Some message => Raise (External message)
  end.

(** [kwargs.get('start_datetimes', None)]: the value as it is, [None] for
    a missing key as for a key that holds [None]. *)
Definition get_start_datetimes {val} (kw : kwargs val) : option (kwarg val) :=
  match kw !! "start_datetimes" with
  | Some KwNone => None
  | value => value
  end.

(** The keyword [progress] is missing, [None], a boolean, or a callable
    that yields the items of [range(n)] as they come. *)
Definition plain_progress {val} (kw : kwargs val) (n : nat) : Prop :=
  match kw !! "progress" with
  | None => True
  | Some KwNone => True
  | Some (KwBool _) => True
  | Some (KwCallable f) => f (seq 0 n) = inr {| yielded := seq 0 n; raised := None |}
  | Some (KwTensor _) => False
  | Some (KwDatetimes _) => False
  end.

(** ** The collaborators of the filter *)

(** Modelled from the spec: the design-for-batch of the missing module
    [design], what a call of [Design.for_batch] hands back: the matrices
    [F[t]], [H[t]], [Q[t]], [R[t]] per timestep and the initial
    distribution of the batch. *)
Module DesignForBatch.
Record t (M : Type) := {
  F : list M;
  H : list M;
  Q : list M;
  R : list M;
  get_block_diag_initial_state : nat -> M * M
}.
Arguments F {M} _.
Arguments H {M} _.
Arguments Q {M} _.
Arguments R {M} _.
Arguments get_block_diag_initial_state {M} _ _.

(** All four sequences cover the timesteps [0 .. n-1]. *)
Definition covers {M} (d : t M) (n : nat) : Prop :=
  length (F d) = n ∧ length (H d) = n ∧ length (Q d) = n ∧ length (R d) = n.
End DesignForBatch.

(** Modelled from the spec: [Design], of the missing module [design], as
    far as the filter uses it: its measure count and its [for_batch], which
    returns a design-for-batch or raises. What [for_batch] does with the
    batch shape and the keyword arguments is left open. *)
Module Design.
Record t (val M : Type) := {
  measure_size : nat;
  for_batch : nat -> nat -> kwargs val -> string + DesignForBatch.t M
}.
Arguments measure_size {val M} _.
Arguments for_batch {val M} _ _ _ _.
End Design.

(** ** State beliefs over time *)

(** Modelled from the spec: [StateBeliefOverTime], of the missing module
    [state_belief/over_time.py], as a record of what
    [concatenate_over_time] is given: the per-timestep beliefs in order, the
    design, and the start datetimes as they were passed ([None] when they
    were not). *)
Module StateBeliefOverTime.
Record t (val M B : Type) := {
  state_beliefs : list B;
  design : Design.t val M;
  start_datetimes : option (kwarg val)
}.
Arguments state_beliefs {val M B} _.
Arguments design {val M B} _.
Arguments start_datetimes {val M B} _.

(** Modelled from the spec: [last_prediction], of the missing module
    [state_belief/over_time.py]: the last belief of the sequence, the seed
    of a forecast. *)
Definition last_prediction {val M B} (s : t val M B) : result B :=
  match last (state_beliefs s) with
  | Some b => Ok b
  | None => Raise (External "no prediction")
  end.
End StateBeliefOverTime.

(** Modelled from the spec: the distributional family, of the missing
    module [state_belief], as an interface: the operations of a state
    belief, each returning its result. [B] is a
    belief, [M] a (batched) matrix or vector, [val] an observed value.
    [compute_measurement] works in place in the source: here it returns the
    belief as it stands after the call, and the caller rebinds its name. *)
Class StateBelief (val M B : Type) := {
  family : M -> M -> B;
  means : B -> M;
  covs : B -> M;
  batch_size : B -> nat;
  predict : B -> M -> M -> B;
  update : B -> list (list val) -> B;
  compute_measurement : B -> M -> M -> B;
  simulate_from : B -> DesignForBatch.t M -> kwargs val -> Tensor val;
  slice_by_dt : StateBeliefOverTime.t val M B -> datetimes -> string + B
}.

(** What the specification says of these operations and the filter relies
    on: measuring annotates a belief and leaves its distribution alone, and
    every operation keeps the batch. *)
Class StateBeliefLaws (val M B : Type) `{!StateBelief val M B} : Prop := {
  means_compute_measurement b Hm Rm : means (compute_measurement b Hm Rm) = means b;
  covs_compute_measurement b Hm Rm : covs (compute_measurement b Hm Rm) = covs b;
  batch_size_compute_measurement b Hm Rm :
    batch_size (compute_measurement b Hm Rm) = batch_size b;
  batch_size_predict b Fm Qm : batch_size (predict b Fm Qm) = batch_size b;
  batch_size_update b obs : batch_size (update b obs) = batch_size b
}.

(** ** The filter: [kalman_filter.py] *)

Module KalmanFilter.
Section KalmanFilter.
Context {val M B : Type} `{!TruthValue val} `{!StateBelief val M B}.

Record t := { design : Design.t val M }.

Definition measure_size (self : t) : nat := Design.measure_size (design self).

(** Modelled from the spec: [family.concatenate_over_time(state_beliefs=...,
    design=..., start_datetimes=...)], of the missing module [state_belief]:
    it wraps what it is given. What the source makes of the beliefs (it
    concatenates their tensors) and whether it accepts an empty list is not
    modelled. *)
Definition concatenate_over_time (state_beliefs : list B) (d : Design.t val M)
    (start : option (kwarg val)) : StateBeliefOverTime.t val M B :=
  {| StateBeliefOverTime.state_beliefs := state_beliefs;
     StateBeliefOverTime.design := d;
     StateBeliefOverTime.start_datetimes := start |}.

(** The body of the loop of [forward], from the [for] line to the [append]:
    the prediction carried into timestep [t] and the list built so far go
    in, the prediction of timestep [t] and the extended list come out. *)
Definition forward_body (design_for_batch : DesignForBatch.t M) (input : Tensor val)
    (t : nat) (state_prediction : B) (state_predictions : list B) : result (B * list B) :=
  state_prediction ←
    (if (0 <? t)%nat then
       obs ← getslice input (t - 1);
       let state_belief := update state_prediction obs in
       Fm ← getitem (DesignForBatch.F design_for_batch) (t - 1);
       Qm ← getitem (DesignForBatch.Q design_for_batch) (t - 1);
       Ok (predict state_belief Fm Qm)
     else Ok state_prediction);
  Hm ← getitem (DesignForBatch.H design_for_batch) t;
  Rm ← getitem (DesignForBatch.R design_for_batch) t;
  let state_prediction := compute_measurement state_prediction Hm Rm in
  Ok (state_prediction, state_predictions ++ [state_prediction]).

Fixpoint forward_loop (design_for_batch : DesignForBatch.t M) (input : Tensor val)
    (iterator : list nat) (state_prediction : B) (state_predictions : list B)
    : result (list B) :=
  match iterator with
  | [] => Ok state_predictions
  | t :: iterator =>
      '(state_prediction, state_predictions) ←
        forward_body design_for_batch input t state_prediction state_predictions;
      forward_loop design_for_batch input iterator state_prediction state_predictions
  end.

(** The belief the recursion starts from: the one handed in, or the
    design's initial distribution for the batch. *)
Definition initial_prediction (design_for_batch : DesignForBatch.t M) (num_groups : nat)
    (initial_state : option B) : B :=
  match initial_state with
  | None =>
      let '(mu, sigma) :=
        DesignForBatch.get_block_diag_initial_state design_for_batch num_groups in
      family mu sigma
  | Some s => s
  end.

Definition forward (self : t) (input : Tensor val) (initial_state : option B)
    (kw : kwargs val) : result (StateBeliefOverTime.t val M B) :=
  let kw := <["input" := KwTensor input]> kw in
  let '(num_groups, num_timesteps, num_measures) := shape input in
  if negb (num_measures =? measure_size self)%nat then
    Raise (MeasureSizeMismatch (measure_size self) (num_groups, num_timesteps, num_measures))
  else
    design_for_batch ← call (Design.for_batch (design self) num_groups num_timesteps kw);
    let state_prediction := initial_prediction design_for_batch num_groups initial_state in
    prog ← select_progress kw;
    iterator ← iterate prog (seq 0 num_timesteps);
    state_predictions ←
      forward_loop design_for_batch input (yielded iterator) state_prediction [];
    exhaust iterator;;
    Ok (concatenate_over_time state_predictions (design self) (get_start_datetimes kw)).

Definition smooth (self : t) (states : StateBeliefOverTime.t val M B)
    : result (StateBeliefOverTime.t val M B) :=
  Raise SmoothNotImplemented.

(** The seed of [simulate] and [forecast], and the keyword arguments after
    the seed is chosen. *)
Definition seed (states : StateBeliefOverTime.t val M B) (from_datetimes : option datetimes)
    (kw : kwargs val) : result (B * kwargs val) :=
  match from_datetimes with
  | None =>
      b ← StateBeliefOverTime.last_prediction states;
      Ok (b, kw)
  | Some d =>
      b ← call (slice_by_dt states d);
      Ok (b, <["start_datetimes" := KwDatetimes d]> kw)
  end.

Definition simulate (self : t) (states : StateBeliefOverTime.t val M B) (horizon : Z)
    (from_datetimes : option datetimes) (kw : kwargs val) : result (Tensor val) :=
  if negb (0 <? horizon)%Z then Raise HorizonAssertion
  else
    '(initial_state, kw) ← seed states from_datetimes kw;
    design_for_batch ←
      call (Design.for_batch (design self) (batch_size initial_state) (Z.to_nat horizon) kw);
    Ok (simulate_from initial_state design_for_batch kw).

Definition forecast_body (design_for_batch : DesignForBatch.t M)
    (t : nat) (state_prediction : B) (forecasts : list B) : result (B * list B) :=
  state_prediction ←
    (if (0 <? t)%nat then
       Fm ← getitem (DesignForBatch.F design_for_batch) (t - 1);
       Qm ← getitem (DesignForBatch.Q design_for_batch) (t - 1);
       Ok (predict state_prediction Fm Qm)
     else Ok state_prediction);
  Hm ← getitem (DesignForBatch.H design_for_batch) t;
  Rm ← getitem (DesignForBatch.R design_for_batch) t;
  let state_prediction := compute_measurement state_prediction Hm Rm in
  Ok (state_prediction, forecasts ++ [state_prediction]).

Fixpoint forecast_loop (design_for_batch : DesignForBatch.t M)
    (iterator : list nat) (state_prediction : B) (forecasts : list B) : result (list B) :=
  match iterator with
  | [] => Ok forecasts
  | t :: iterator =>
      '(state_prediction, forecasts) ←
        forecast_body design_for_batch t state_prediction forecasts;
      forecast_loop design_for_batch iterator state_prediction forecasts
  end.

Definition forecast (self : t) (states : StateBeliefOverTime.t val M B) (horizon : Z)
    (forecast_from_datetimes : option datetimes) (kw : kwargs val)
    : result (StateBeliefOverTime.t val M B) :=
  if negb (0 <? horizon)%Z then Raise HorizonAssertion
  else
    '(state_prediction, kw) ← seed states forecast_from_datetimes kw;
    design_for_batch ←
      call (Design.for_batch (design self) (batch_size state_prediction) (Z.to_nat horizon) kw);
    prog ← select_progress kw;
    iterator ← iterate prog (seq 0 (Z.to_nat horizon));
    forecasts ← forecast_loop design_for_batch (yielded iterator) state_prediction [];
    exhaust iterator;;
    Ok (concatenate_over_time forecasts (design self) (KwDatetimes <$> forecast_from_datetimes)).

End KalmanFilter.
Arguments t : clear implicits.
End KalmanFilter.

(** ** A Gaussian family in dimension one *)

(** Modelled from the spec: the Gaussian state belief ([state_belief], not
    among the sources), for designs with one state element and one measure,
    where every matrix is a scalar per group. Arithmetic is exact, over
    rationals kept in lowest terms; a missing observation (a NaN in the
    source) is [None]. *)
Module Gaussian1.

Definition qadd (a b : Q) : Q := Qred (a + b).
Definition qsub (a b : Q) : Q := Qred (a - b).
Definition qmul (a b : Q) : Q := Qred (a * b).
Definition qdiv (a b : Q) : Q := Qred (a / b).

(** The belief of one group: mean and variance of the state, and, once
    [compute_measurement] ran, [H], [R] and the measurement-space mean and
    variance. *)
Record group := {
  mean : Q;
  cov : Q;
  measurement : option (Q * Q * Q * Q)
}.

Abbreviation belief := (list group).
Abbreviation matrix := (list Q).
Abbreviation value := (option Q).

Definition at_group (m : matrix) (g : nat) : Q := default 0%Q (m !! g).

(** mean' = F mean; covariance' = F covariance F^T + Q *)
Definition predict1 (b : group) (f q : Q) : group :=
  {| mean := qmul f (mean b);
     cov := qadd (qmul (qmul f (cov b)) f) q;
     measurement := None |}.

(** measurement-mean = H mean; measurement-covariance = H covariance H^T + R *)
Definition compute_measurement1 (b : group) (h r : Q) : group :=
  {| mean := mean b;
     cov := cov b;
     measurement := Some (h, r, qmul h (mean b), qadd (qmul (qmul h (cov b)) h) r) |}.

(** innovation = obs - H mean; K = covariance H^T (H covariance H^T + R)^-1;
    mean' = mean + K innovation; covariance' = (I - K H) covariance. A
    missing observation leaves the group as it is. *)
Definition update1 (b : group) (obs : list value) : group :=
  match measurement b, obs with
  | Some (h, r, mmean, mcov), Some y :: _ =>
      let innovation := qsub y mmean in
      let K := qdiv (qmul (cov b) h) mcov in
      {| mean := qadd (mean b) (qmul K innovation);
         cov := qmul (qsub 1 (qmul K h)) (cov b);
         measurement := None |}
  | _, _ => {| mean := mean b; cov := cov b; measurement := None |}
  end.

Definition Gaussian (mu sigma : matrix) : belief :=
  zip_with (fun m c => {| mean := m; cov := c; measurement := None |}) mu sigma.

Definition predict_batch (b : belief) (Fm Qm : matrix) : belief :=
  imap (fun g x => predict1 x (at_group Fm g) (at_group Qm g)) b.

Definition compute_measurement_batch (b : belief) (Hm Rm : matrix) : belief :=
  imap (fun g x => compute_measurement1 x (at_group Hm g) (at_group Rm g)) b.

Definition update_batch (b : belief) (obs : list (list value)) : belief :=
  imap (fun g x => update1 x (default [] (obs !! g))) b.

(** The trajectory of measurement means over the horizon of the design:
    the draws of state and measurement noise are left out. *)
Fixpoint trajectory (b : belief) (Fs Hs : list matrix) : list (list value) :=
  match Hs with
  | [] => []
  | Hm :: Hs =>
      imap (fun g x => Some (qmul (at_group Hm g) (mean x))) b ::
      match Fs with
      | [] => []
      | Fm :: Fs => trajectory (predict_batch b Fm []) Fs Hs
      end
  end.

(** [groups][timesteps][measures] from [timesteps][groups]. *)
Definition by_group (num_groups : nat) (steps : list (list value)) : list (list (list value)) :=
  (fun g => (fun step => [default None (step !! g)]) <$> steps) <$> seq 0 num_groups.

Definition simulate_batch (b : belief) (d : DesignForBatch.t matrix)
    (kw : kwargs value) : Tensor value :=
  let steps := trajectory b (DesignForBatch.F d) (DesignForBatch.H d) in
  {| shape := (length b, length steps, 1); data := by_group (length b) steps |}.

(** The belief of every group at the timestep its datetime names, one
    timestep per unit of time from the group's start. *)
Definition slice_group (beliefs : list belief) (g : nat) (start dt : Z) : string + group :=
  if (dt <? start)%Z then inl "datetime before start"
  else
    match beliefs !! Z.to_nat (dt - start) with
    | Some b =>
        match b !! g with
        | Some x => inr x
        | None => inl "no such group"
        end
    | None => inl "datetime after the last timestep"
    end.

Fixpoint slice_groups (beliefs : list belief) (g : nat) (starts dts : list Z)
    : string + belief :=
  match starts, dts with
  | start :: starts, dt :: dts =>
      match slice_group beliefs g start dt, slice_groups beliefs (S g) starts dts with
      | inr x, inr xs => inr (x :: xs)
      | inl message, _ => inl message
      | _, inl message => inl message
      end
  | [], [] => inr []
  | _, _ => inl "one datetime per group"
  end.

Definition slice (s : StateBeliefOverTime.t value matrix belief) (dts : datetimes)
    : string + belief :=
  match StateBeliefOverTime.start_datetimes s with
  | Some (KwDatetimes starts) =>
      slice_groups (StateBeliefOverTime.state_beliefs s) 0 starts dts
  | _ => inl "no start datetimes"
  end.

(** The truth of a tensor or an array of one element is that of the
    element, zero being false and a missing value true; of any other
    number of elements it is not defined. *)
Definition bool_of_elements {A} (nonzero : A → bool) (elements : list A) : string + bool :=
  match elements with
  | [x] => inr (nonzero x)
  | _ => inl "the truth value of several elements, or of none, is ambiguous"
  end.

Definition nonzero (v : value) : bool :=
  match v with
  | Some q => negb (Qeq_bool q 0)
  | None => true
  end.

#[global] Instance truth_value : TruthValue value := {|
  bool_of_tensor x := bool_of_elements nonzero (concat (concat (data x)));
  bool_of_array d := bool_of_elements (fun z => negb (z =? 0)%Z) d
|}.

#[global] Instance gaussian : StateBelief value matrix belief := {|
  family := Gaussian;
  means := fmap mean;
  covs := fmap cov;
  batch_size := length;
  predict := predict_batch;
  update := update_batch;
  compute_measurement := compute_measurement_batch;
  simulate_from := simulate_batch;
  slice_by_dt := slice
|}.

(** A design with one state element and one measure whose matrices are
    the same for every group and timestep: transition [f], measurement
    [h], process variance [q], measurement variance [r]; initial mean 0 and
    variance 1. *)
Definition constant_design_for_batch (f h q r : Q) (num_groups num_timesteps : nat)
    : DesignForBatch.t matrix :=
  {| DesignForBatch.F := replicate num_timesteps (replicate num_groups f);
     DesignForBatch.H := replicate num_timesteps (replicate num_groups h);
     DesignForBatch.Q := replicate num_timesteps (replicate num_groups q);
     DesignForBatch.R := replicate num_timesteps (replicate num_groups r);
     DesignForBatch.get_block_diag_initial_state := fun n =>
       (replicate n 0%Q, replicate n 1%Q) |}.

Definition constant_design (f h q r : Q) : Design.t value matrix :=
  {| Design.measure_size := 1;
     Design.for_batch := fun g n _ => inr (constant_design_for_batch f h q r g n) |}.

(** A design whose process takes the keyword [input] in its [for_batch]
    and adjusts its measurement entry with it: at every timestep, [H] of a
    group is 1 plus the group's last observation (0 when it is missing). *)
Definition last_observation (x : Tensor value) (g : nat) : Q :=
  match data x !! g with
  | Some grp =>
      match last grp with
      | Some (Some y :: _) => y
      | _ => 0%Q
      end
  | None => 0%Q
  end.

Definition input_adjusted_for_batch (num_groups num_timesteps : nat) (kw : kwargs value)
    : DesignForBatch.t matrix :=
  let adjustment g :=
    match kw !! "input" with
    | Some (KwTensor x) => last_observation x g
    | _ => 0%Q
    end in
  {| DesignForBatch.F := replicate num_timesteps (replicate num_groups 1%Q);
     DesignForBatch.H :=
       replicate num_timesteps ((fun g => qadd 1 (adjustment g)) <$> seq 0 num_groups);
     DesignForBatch.Q := replicate num_timesteps (replicate num_groups 1%Q);
     DesignForBatch.R := replicate num_timesteps (replicate num_groups 1%Q);
     DesignForBatch.get_block_diag_initial_state := fun n =>
       (replicate n 0%Q, replicate n 1%Q) |}.

Definition input_adjusted_design : Design.t value matrix :=
  {| Design.measure_size := 1;
     Design.for_batch := fun g n kw => inr (input_adjusted_for_batch g n kw) |}.

(** Inputs of one measure, written [groups][timesteps]. *)
Definition tensor_of (rows : list (list value)) : Tensor value :=
  {| shape := (length rows, length (default [] (head rows)), 1);
     data := map (map (fun y : value => [y])) rows |}.

(** The states of a call that returned, for use as the argument of the
    next call; empty when the call raised. *)
Definition returned (r : result (StateBeliefOverTime.t value matrix belief))
    : StateBeliefOverTime.t value matrix belief :=
  match r with
  | Ok s => s
  | Raise _ =>
      {| StateBeliefOverTime.state_beliefs := [];
         StateBeliefOverTime.design := constant_design 0 0 0 0;
         StateBeliefOverTime.start_datetimes := None |}
  end.

(** A filter whose state doubles at every step, observed directly; two
    groups over five timesteps, with missing observations; the states
    [forward] returns on them and the forecast of four steps from these. *)
Definition doubling_filter : KalmanFilter.t value matrix :=
  {| KalmanFilter.design := constant_design 2 1 (1 # 2) 1 |}.

Definition two_groups : Tensor value :=
  tensor_of [[Some 1%Q; Some 2%Q; None; Some 3%Q; Some 5%Q];
             [Some 0%Q; Some 1%Q; Some 1%Q; Some 1%Q; None]].

Definition two_groups_other_end : Tensor value :=
  tensor_of [[Some 1%Q; Some 2%Q; None; Some 3%Q; Some 8%Q];
             [Some 0%Q; Some 1%Q; Some 1%Q; Some 1%Q; Some 4%Q]].

Definition filtered : StateBeliefOverTime.t value matrix belief :=
  returned (KalmanFilter.forward doubling_filter two_groups None ∅).

Definition forecasted : StateBeliefOverTime.t value matrix belief :=
  returned (KalmanFilter.forecast doubling_filter filtered 4 None ∅).

Definition filtered_other_end : StateBeliefOverTime.t value matrix belief :=
  returned (KalmanFilter.forward doubling_filter two_groups_other_end None ∅).

Definition last_filtered : belief :=
  default [] (last (StateBeliefOverTime.state_beliefs filtered)).

(** An initial state handed in by the caller, for two groups. *)
Definition handed_in : belief := Gaussian [5; 7]%Q [2; 3]%Q.

(** A filter over the design that reads [input], and two inputs of one
    group and two timesteps that differ in the last observation only. *)
Definition input_adjusted_filter : KalmanFilter.t value matrix :=
  {| KalmanFilter.design := input_adjusted_design |}.

Definition ends_with_2 : Tensor value := tensor_of [[Some 1%Q; Some 2%Q]].
Definition ends_with_5 : Tensor value := tensor_of [[Some 1%Q; Some 5%Q]].

Definition filtered_2 : StateBeliefOverTime.t value matrix belief :=
  returned (KalmanFilter.forward input_adjusted_filter ends_with_2 None ∅).
Definition filtered_5 : StateBeliefOverTime.t value matrix belief :=
  returned (KalmanFilter.forward input_adjusted_filter ends_with_5 None ∅).

(** The belief at index 1 of each. *)
Definition second_of_2 : belief :=
  default [] (StateBeliefOverTime.state_beliefs filtered_2 !! 1).
Definition second_of_5 : belief :=
  default [] (StateBeliefOverTime.state_beliefs filtered_5 !! 1).

(** The first belief of the forecast, and the batch design of the forecast. *)
Definition first_forecasted : belief :=
  default [] (StateBeliefOverTime.state_beliefs forecasted !! 0).
Definition forecast_design : DesignForBatch.t matrix :=
  constant_design_for_batch 2 1 (1 # 2) 1 2 4.





End Gaussian1.

(** ** Design matrices *)

(** Modelled from the spec: the design matrix ([process/utils/design_matrix],
    not among the sources): named rows and columns, cells assigned by
    (row, column), each a constant or a parameter with an optional inverse
    link; [for_batch] yields a fresh matrix for a batch shape and leaves the
    receiver alone. Only what [Process] calls is modelled. *)
Module DesignMatrix.

(** [DesignMatAssignment]: a constant or a parameter handle. *)
Inductive assignment :=
| Constant (c : Q)
| Param (handle : string).

Record cell := {
  value : assignment;
  ilink : option string
}.

Record t := {
  dim1_names : list string;
  dim2_names : list string;
  assignments : gmap (string * string) cell;
  batch_info : option (nat * nat)
}.

(** [TransitionMatrix(...)], [MeasureMatrix(...)], [ProcessVarianceMultiplierMatrix(...)] *)
Definition new (dim1_names dim2_names : list string) : t :=
  {| dim1_names := dim1_names; dim2_names := dim2_names;
     assignments := ∅; batch_info := None |}.

Definition empty (m : t) : bool := bool_decide (assignments m = ∅).

(** The measures of a measure matrix are its rows. *)
Definition measures (m : t) : list string := dim1_names m.

(** A row not seen before is registered among the rows. *)
Definition register (names : list string) (row : string) : list string :=
  if bool_decide (row ∈ names) then names else names ++ [row].

(** A cell is assigned at most once unless an overwrite is requested. *)
Definition assign (m : t) (row col : string) (v : assignment) (overwrite : bool)
    : result t :=
  if bool_decide (is_Some (assignments m !! (row, col))) && negb overwrite then
    Raise (DuplicateAssignment row col)
  else
    Ok {| dim1_names := register (dim1_names m) row;
          dim2_names := dim2_names m;
          assignments := <[(row, col) := {| value := v; ilink := None |}]> (assignments m);
          batch_info := batch_info m |}.

Definition set_ilink (m : t) (row col : string) (link : option string) (overwrite : bool)
    : result t :=
  Ok {| dim1_names := dim1_names m; dim2_names := dim2_names m;
        assignments :=
          alter (fun c => {| value := value c; ilink := link |}) (row, col) (assignments m);
        batch_info := batch_info m |}.

(** The matrix materialized for a batch shape. *)
Definition for_batch (m : t) (num_groups num_timesteps : nat) : t :=
  {| dim1_names := dim1_names m; dim2_names := dim2_names m;
     assignments := assignments m;
     batch_info := Some (num_groups, num_timesteps) |}.

End DesignMatrix.

(** ** The process base class: [process/base.py] *)

Module Process.

(** *** Classes, methods and signatures *)

Inductive kind :=
| POSITIONAL_OR_KEYWORD
| VAR_POSITIONAL
| KEYWORD_ONLY
| VAR_KEYWORD.

(** One entry of [inspect.signature(method).parameters]. *)
Record parameter := {
  name : string;
  param_kind : kind
}.

(** A code object, by the function it was compiled from: a method of
    [Process] itself, or a method defined in the body of a [class]
    statement, which is never the code of a method of [Process]. *)
Inductive code :=
| OfProcess (method_name : string)
| OfBody (class_name method_name : string).

#[global] Instance code_eq_dec : EqDecision code.
Proof. solve_decision. Defined.

(** A function object: its [__code__] and its signature. *)
Record method := {
  __code__ : code;
  parameters : list parameter
}.

(** A class as attribute lookup sees it, after inheritance is resolved. *)
Record class := {
  __name__ : string;
  cls_for_batch : method;
  cls_initial_state_means_for_batch : method;
  cls_batch_kwargs : method;
  dynamic_state_elements : list string -> list string;
  fixed_state_elements : list string -> list string
}.

Definition positional (n : string) : parameter :=
  {| name := n; param_kind := POSITIONAL_OR_KEYWORD |}.
Definition var_keyword (n : string) : parameter :=
  {| name := n; param_kind := VAR_KEYWORD |}.

(** [Process] itself. *)
Definition Process : class :=
  {| __name__ := "Process";
     cls_for_batch :=
       {| __code__ := OfProcess "for_batch";
          parameters := [positional "self"; positional "num_groups";
                         positional "num_timesteps"; var_keyword "kwargs"] |};
     cls_initial_state_means_for_batch :=
       {| __code__ := OfProcess "initial_state_means_for_batch";
          parameters := [positional "self"; positional "parameters";
                         positional "num_groups"; var_keyword "kwargs"] |};
     cls_batch_kwargs :=
       {| __code__ := OfProcess "batch_kwargs";
          parameters := [positional "cls"; positional "method"] |};
     dynamic_state_elements := fun state_elements => state_elements;
     fixed_state_elements := fun _ => [] |}.

(** The body of a [class C(parent): ...] statement: what it defines anew. *)
Record class_body := {
  body_name : string;
  def_for_batch : option (list parameter);
  def_initial_state_means_for_batch : option (list parameter);
  def_batch_kwargs : option (list parameter);
  def_dynamic_state_elements : option (list string -> list string);
  def_fixed_state_elements : option (list string -> list string)
}.

Definition resolve (c m : string) (own : option (list parameter)) (inherited : method)
    : method :=
  match own with
  | Some ps => {| __code__ := OfBody c m; parameters := ps |}
  | None => inherited
  end.

(** The class object a [class] statement builds from its parent. *)
Definition subclass (parent : class) (body : class_body) : class :=
  {| __name__ := body_name body;
     cls_for_batch :=
       resolve (body_name body) "for_batch" (def_for_batch body) (cls_for_batch parent);
     cls_initial_state_means_for_batch :=
       resolve (body_name body) "initial_state_means_for_batch"
         (def_initial_state_means_for_batch body) (cls_initial_state_means_for_batch parent);
     cls_batch_kwargs :=
       resolve (body_name body) "batch_kwargs" (def_batch_kwargs body) (cls_batch_kwargs parent);
     dynamic_state_elements :=
       default (dynamic_state_elements parent) (def_dynamic_state_elements body);
     fixed_state_elements :=
       default (fixed_state_elements parent) (def_fixed_state_elements body) |}.

Definition excluded : gset string :=
  {["self"; "num_groups"; "num_timesteps"; "parameters"]}.

(** [Process.batch_kwargs(method)]: the parameter names of [method], those
    of [excluded] left out, in signature order. *)
Definition batch_kwargs (m : method) : list string :=
  filter (fun kwarg => kwarg ∉ excluded) (name <$> parameters m).

Definition code_differs (a b : method) : bool :=
  bool_decide (__code__ a ≠ __code__ b).

Definition __init_subclass__ (cls : class) : result unit :=
  let overrides_batch_kwargs := code_differs (cls_batch_kwargs cls) (cls_batch_kwargs Process) in
  if negb overrides_batch_kwargs then
    let '(batch_kwargs, init_mean_kwargs) :=
      (list_to_set (batch_kwargs (cls_for_batch cls)) : gset string,
       list_to_set (batch_kwargs (cls_initial_state_means_for_batch cls)) : gset string) in
    let overrides_for_batch := code_differs (cls_for_batch cls) (cls_for_batch Process) in
    let overrides_init_mean :=
      code_differs (cls_initial_state_means_for_batch cls)
        (cls_initial_state_means_for_batch Process) in
    if overrides_for_batch && bool_decide ("kwargs" ∈ batch_kwargs) then
      Raise (ForBatchKwargsNotExplicit (__name__ cls))
    else if overrides_init_mean && bool_decide ("kwargs" ∈ init_mean_kwargs) then
      Raise (InitMeanKwargsNotExplicit (__name__ cls))
    else if overrides_for_batch && overrides_init_mean
            && bool_decide (batch_kwargs ≠ init_mean_kwargs) then
      Raise (SignatureMismatch (__name__ cls))
    else Ok ()
  else Ok ().

(** A method of a class is an override when its code is not that of the
    method of [Process]. *)
Definition overrides (m base : method) : Prop := __code__ m ≠ __code__ base.

(** The keyword arguments of a method, as a set. *)
Definition keywords (m : method) : gset string := list_to_set (batch_kwargs m).

(** A method declares its keyword arguments explicitly: it has no
    catch-all, under whatever name, and no parameter named [kwargs]. *)
Definition explicit (m : method) : Prop :=
  Forall (fun x => param_kind x ≠ VAR_KEYWORD ∧ name x ≠ "kwargs") (parameters m).

(** Four subclasses: [Season], whose two overrides take the keyword
    [start_datetimes]; [Loose], whose [initial_state_means_for_batch] takes
    [**kwargs] instead; [Unchecked], as [Loose] but with [batch_kwargs]
    overridden as well; [Named], whose two overrides take one keyword, an
    ordinary parameter that is named [kwargs]. *)
Definition Season : class :=
  subclass Process
    {| body_name := "Season";
       def_for_batch :=
         Some [positional "self"; positional "num_groups"; positional "num_timesteps";
               positional "start_datetimes"];
       def_initial_state_means_for_batch :=
         Some [positional "self"; positional "parameters"; positional "num_groups";
               positional "start_datetimes"];
       def_batch_kwargs := None;
       def_dynamic_state_elements := None;
       def_fixed_state_elements := None |}.

Definition Loose : class :=
  subclass Process
    {| body_name := "Loose";
       def_for_batch :=
         Some [positional "self"; positional "num_groups"; positional "num_timesteps";
               positional "start_datetimes"];
       def_initial_state_means_for_batch :=
         Some [positional "self"; positional "parameters"; positional "num_groups";
               var_keyword "kwargs"];
       def_batch_kwargs := None;
       def_dynamic_state_elements := None;
       def_fixed_state_elements := None |}.

Definition Unchecked : class :=
  subclass Process
    {| body_name := "Unchecked";
       def_for_batch :=
         Some [positional "self"; positional "num_groups"; positional "num_timesteps";
               positional "start_datetimes"];
       def_initial_state_means_for_batch :=
         Some [positional "self"; positional "parameters"; positional "num_groups";
               var_keyword "kwargs"];
       def_batch_kwargs := Some [positional "cls"; positional "method"];
       def_dynamic_state_elements := None;
       def_fixed_state_elements := None |}.

Definition Named : class :=
  subclass Process
    {| body_name := "Named";
       def_for_batch :=
         Some [positional "self"; positional "num_groups"; positional "num_timesteps";
               positional "kwargs"];
       def_initial_state_means_for_batch :=
         Some [positional "self"; positional "parameters"; positional "num_groups";
               positional "kwargs"];
       def_batch_kwargs := None;
       def_dynamic_state_elements := None;
       def_fixed_state_elements := None |}.

(** *** Objects and the heap *)

Abbreviation loc := positive.

(** The instance attributes of a process; the three matrices are objects of
    their own, held by reference. *)
Record t := {
  cls : class;
  id : string;
  state_elements : list string;
  transition_mat : loc;
  measure_mat : loc;
  variance_multi_mat : loc;
  batch_info : option (nat * nat)
}.

Inductive object :=
| ProcessObject (p : t)
| MatrixObject (m : DesignMatrix.t).

Abbreviation heap := (gmap loc object).

(** A computation that reads and writes the heap and may raise; what was
    written before an exception stays written. *)
Definition st (A : Type) : Type := heap -> result A * heap.

#[global] Instance st_ret : MRet st := fun A a h => (Ok a, h).
#[global] Instance st_bind : MBind st := fun A B f m h =>
  match m h with
  | (Ok a, h) => f a h
  | (Raise e, h) => (Raise e, h)
  end.

Definition raise {A} (e : exn) : st A := fun h => (Raise e, h).

Definition lift {A} (r : result A) : st A := fun h => (r, h).

(** A new object, at an address no object has. *)
Definition alloc (o : object) : st loc := fun h =>
  let l := fresh (dom h) in (Ok l, <[l := o]> h).

Definition get_process (l : loc) : st t := fun h =>
  match h !! l with
  | Some (ProcessObject p) => (Ok p, h)
  | _ => (Raise (NoSuchObject l), h)
  end.

Definition get_matrix (l : loc) : st DesignMatrix.t := fun h =>
  match h !! l with
  | Some (MatrixObject m) => (Ok m, h)
  | _ => (Raise (NoSuchObject l), h)
  end.

Definition put (l : loc) (o : object) : st unit := fun h => (Ok (), <[l := o]> h).

(** [obj.attr = ...] on a process object. *)
Definition setattr (l : loc) (f : t -> t) : st unit :=
  p ← get_process l;
  put l (ProcessObject (f p)).

Definition with_batch_info (b : nat * nat) (p : t) : t :=
  {| cls := cls p; id := id p; state_elements := state_elements p;
     transition_mat := transition_mat p; measure_mat := measure_mat p;
     variance_multi_mat := variance_multi_mat p; batch_info := Some b |}.

Definition with_variance_multi_mat (m : loc) (p : t) : t :=
  {| cls := cls p; id := id p; state_elements := state_elements p;
     transition_mat := transition_mat p; measure_mat := measure_mat p;
     variance_multi_mat := m; batch_info := batch_info p |}.

Definition with_measure_mat (m : loc) (p : t) : t :=
  {| cls := cls p; id := id p; state_elements := state_elements p;
     transition_mat := transition_mat p; measure_mat := m;
     variance_multi_mat := variance_multi_mat p; batch_info := batch_info p |}.

Definition with_transition_mat (m : loc) (p : t) : t :=
  {| cls := cls p; id := id p; state_elements := state_elements p;
     transition_mat := m; measure_mat := measure_mat p;
     variance_multi_mat := variance_multi_mat p; batch_info := batch_info p |}.

(** [mat.for_batch(num_groups, num_timesteps)] on a matrix object: the
    materialized matrix is a new object. *)
Definition matrix_for_batch (mat : loc) (num_groups num_timesteps : nat) : st loc :=
  m ← get_matrix mat;
  alloc (MatrixObject (DesignMatrix.for_batch m num_groups num_timesteps)).

(** *** The methods of [Process] *)

(** [set(a).isdisjoint(b)] *)
Definition isdisjoint (a : gset string) (b : list string) : bool :=
  forallb (fun x => bool_decide (x ∉ a)) b.

Definition _validate (self : loc) : st unit :=
  p ← get_process self;
  if negb (length (state_elements p)
             =? size (list_to_set (state_elements p) : gset string))%nat then
    raise DuplicateStateElements
  else if negb (isdisjoint
                  (list_to_set (dynamic_state_elements (cls p) (state_elements p)))
                  (fixed_state_elements (cls p) (state_elements p))) then
    raise FixedAlsoDynamic
  else mret ().

(** [cls(id, state_elements)]: the three matrices are built, then the
    instance is checked. The attributes, set one by one in the source, are
    set here at once. *)
Definition __init__ (cls : class) (id : string) (state_elements : list string) : st loc :=
  transition_mat ← alloc (MatrixObject (DesignMatrix.new state_elements state_elements));
  measure_mat ← alloc (MatrixObject (DesignMatrix.new [] state_elements));
  variance_multi_mat ←
    alloc (MatrixObject
             (DesignMatrix.new state_elements (dynamic_state_elements cls state_elements)));
  self ← alloc (ProcessObject
                  {| cls := cls; id := id; state_elements := state_elements;
                     transition_mat := transition_mat; measure_mat := measure_mat;
                     variance_multi_mat := variance_multi_mat; batch_info := None |});
  _ ← _validate self;
  mret self.

Definition measures (self : loc) : st (list string) :=
  p ← get_process self;
  m ← get_matrix (measure_mat p);
  mret (DesignMatrix.measures m).

Definition for_batch (self : loc) (num_groups num_timesteps : nat) : st loc :=
  p ← get_process self;
  ms ← measures self;
  if bool_decide (ms = []) then raise (NoMeasures (id p))
  else
    tm ← get_matrix (transition_mat p);
    if DesignMatrix.empty tm then raise (NoTransitions (id p))
    else
      for_batch ← alloc (ProcessObject p);
      _ ← setattr for_batch (with_batch_info (num_groups, num_timesteps));
      m ← matrix_for_batch (variance_multi_mat p) num_groups num_timesteps;
      _ ← setattr for_batch (with_variance_multi_mat m);
      m ← matrix_for_batch (measure_mat p) num_groups num_timesteps;
      _ ← setattr for_batch (with_measure_mat m);
      m ← matrix_for_batch (transition_mat p) num_groups num_timesteps;
      _ ← setattr for_batch (with_transition_mat m);
      mret for_batch.

Definition _set_measure (self : loc) (measure state_element : string)
    (value : DesignMatrix.assignment) (ilink : option string) (force : bool) : st unit :=
  p ← get_process self;
  m ← get_matrix (measure_mat p);
  m ← lift (DesignMatrix.assign m measure state_element value force);
  _ ← put (measure_mat p) (MatrixObject m);
  m ← lift (DesignMatrix.set_ilink m measure state_element ilink force);
  put (measure_mat p) (MatrixObject m).

Definition _set_transition (self : loc) (from_element to_element : string)
    (value : DesignMatrix.assignment) (ilink : option string) (force : bool) : st unit :=
  p ← get_process self;
  m ← get_matrix (transition_mat p);
  m ← lift (DesignMatrix.assign m to_element from_element value force);
  _ ← put (transition_mat p) (MatrixObject m);
  m ← lift (DesignMatrix.set_ilink m to_element from_element ilink force);
  put (transition_mat p) (MatrixObject m).

(** *** What the claims speak of *)

(** The process at [self] and its three matrices are objects of the heap. *)
Definition allocated (h : heap) (self : loc) : Prop :=
  ∃ p tm mm vm,
    h !! self = Some (ProcessObject p) ∧
    h !! transition_mat p = Some (MatrixObject tm) ∧
    h !! measure_mat p = Some (MatrixObject mm) ∧
    h !! variance_multi_mat p = Some (MatrixObject vm).

(** The matrix at [l'] is the matrix at [l] of the heap [h], materialized
    for the batch shape. *)
Definition materialized (h h' : heap) (l l' : loc) (num_groups num_timesteps : nat) : Prop :=
  ∃ m, h !! l = Some (MatrixObject m) ∧
       h' !! l' = Some (MatrixObject (DesignMatrix.for_batch m num_groups num_timesteps)).

(** *** A process to run the methods on *)

(** A process with two state elements as the constructor leaves it in an
    empty heap, at address [trend]; then with a measure registered; then
    with a transition assigned as well. *)
Definition trend : loc := 4%positive.

Definition trend_attributes : t :=
  {| cls := Process; id := "trend"; state_elements := ["position"; "velocity"];
     transition_mat := 1%positive; measure_mat := 2%positive;
     variance_multi_mat := 3%positive; batch_info := None |}.

Definition constructed : heap :=
  (__init__ Process "trend" ["position"; "velocity"] ∅).2.

Definition measured : heap :=
  (_set_measure trend "y" "position" (DesignMatrix.Constant 1) None false constructed).2.

Definition complete : heap :=
  (_set_transition trend "position" "position" (DesignMatrix.Constant 1) None false
     measured).2.

(** The heap after [for_batch] for 3 groups and 5 timesteps, and the
    address of the copy. *)
Definition specialized : heap := (for_batch trend 3 5 complete).2.
Definition trend_for_batch : loc := 5%positive.

End Process.

(** ** Notions the statements use *)

Section Agreement.
Context {val M : Type}.

(** Two batch designs are the same as far as the prediction of timestep [t]
    reads them: [F] and [Q] before [t], [H] and [R] through [t]. *)
Definition agree_through (d1 d2 : DesignForBatch.t M) (t : nat) : Prop :=
  (∀ s, s < t → DesignForBatch.F d1 !! s = DesignForBatch.F d2 !! s
                ∧ DesignForBatch.Q d1 !! s = DesignForBatch.Q d2 !! s) ∧
  (∀ s, s ≤ t → DesignForBatch.H d1 !! s = DesignForBatch.H d2 !! s
                ∧ DesignForBatch.R d1 !! s = DesignForBatch.R d2 !! s).

(** Two inputs have the same observations at every timestep before [t]. *)
Definition same_before (x1 x2 : Tensor val) (t : nat) : Prop :=
  ∀ s, s < t → select_time x1 s = select_time x2 s.

End Agreement.

Section Recursion.
Context {val M B : Type} `{!StateBelief val M B}.

(** The belief [b] is what timestep [t] of a filtering run makes of the
    prediction [carried] into it: at [t > 0] the carried prediction is
    updated with the observation at [t - 1] and predicted forward with
    [F[t-1]], [Q[t-1]]; at every [t] the measurement is computed with
    [H[t]], [R[t]]. *)
Definition filtered_at (d : DesignForBatch.t M) (input : Tensor val)
    (t : nat) (carried b : B) : Prop :=
  ∃ Hm Rm,
    DesignForBatch.H d !! t = Some Hm ∧ DesignForBatch.R d !! t = Some Rm ∧
    match t with
    | 0 => b = compute_measurement carried Hm Rm
    | S t' => ∃ Fm Qm,
        DesignForBatch.F d !! t' = Some Fm ∧ DesignForBatch.Q d !! t' = Some Qm ∧
        b = compute_measurement (predict (update carried (select_time input t')) Fm Qm) Hm Rm
    end.

(** The same for a forecast: no update, only the prediction forward. *)
Definition forecast_at (d : DesignForBatch.t M) (t : nat) (carried b : B) : Prop :=
  ∃ Hm Rm,
    DesignForBatch.H d !! t = Some Hm ∧ DesignForBatch.R d !! t = Some Rm ∧
    match t with
    | 0 => b = compute_measurement carried Hm Rm
    | S t' => ∃ Fm Qm,
        DesignForBatch.F d !! t' = Some Fm ∧ DesignForBatch.Q d !! t' = Some Qm ∧
        b = compute_measurement (predict carried Fm Qm) Hm Rm
    end.

(** The prediction carried into position [i] of a run that starts from
    [first] and has produced [produced]. *)
Definition carried_into (first : B) (produced : list B) (i : nat) : option B :=
  match i with
  | 0 => Some first
  | S i' => produced !! i'
  end.

End Recursion.

(** ** Further notions and runs *)

Module Gaussian1Runs.
Import Gaussian1.

(** Keyword arguments with the start of each of two groups. *)
Definition dated : kwargs value := {["start_datetimes" := KwDatetimes [10; 20]%Z]}.

Definition filtered_dated : StateBeliefOverTime.t value matrix belief :=
  returned (KalmanFilter.forward doubling_filter two_groups None dated).

(** The forecast of three steps from the beliefs of the groups at the
    datetimes 12 and 23. *)
Definition forecasted_from : StateBeliefOverTime.t value matrix belief :=
  returned (KalmanFilter.forecast doubling_filter filtered_dated 3 (Some [12; 23]%Z) dated).

(** Keyword arguments with a progress wrapper that stops one item before
    the end of what it wraps, and with a tensor of several elements where
    the wrapper belongs; the states [forward] returns under the first. *)
Definition stops_early : kwargs value :=
  {["progress" :=
      KwCallable (fun r => inr {| yielded := take (length r - 1) r; raised := None |})]}.

Definition tensor_for_progress : kwargs value := {["progress" := KwTensor two_groups]}.

Definition filtered_early : StateBeliefOverTime.t value matrix belief :=
  returned (KalmanFilter.forward doubling_filter two_groups None stops_early).

End Gaussian1Runs.

Module ProcessRuns.
Import Process.

(** A subclass that overrides [for_batch] only, and a subclass of [Season]
    that defines nothing anew. *)
Definition Regression : class :=
  subclass Process
    {| body_name := "Regression";
       def_for_batch :=
         Some [positional "self"; positional "num_groups"; positional "num_timesteps";
               positional "predictors"];
       def_initial_state_means_for_batch := None;
       def_batch_kwargs := None;
       def_dynamic_state_elements := None;
       def_fixed_state_elements := None |}.



(** The heap after a second [for_batch] on [trend], for another batch
    shape, and after one more measure is registered on [trend]. *)
Definition specialized_twice : heap := (for_batch trend 7 2 specialized).2.

Definition measured_later : heap :=
  (_set_measure trend "z" "velocity" (DesignMatrix.Constant 1) None false specialized).2.

End ProcessRuns.

(** * Properties *)

(** ** The result monad *)

Lemma getitem_Ok {A} (xs : list A) (i : nat) (x : A) :
  getitem xs i = Ok x ↔ xs !! i = Some x.
Proof.
  unfold getitem. destruct (xs !! i); split; intros E; congruence.
Qed.

Lemma getitem_lt {A} (xs : list A) (i : nat) :
  i < length xs → ∃ x, getitem xs i = Ok x ∧ xs !! i = Some x.
Proof.
  intros Hi. destruct (lookup_lt_is_Some_2 xs i Hi) as [x Hx].
  exists x. split; [by apply getitem_Ok | done].
Qed.

Lemma bind_Ok {A B} (m : result A) (f : A → result B) (b : B) :
  m ≫= f = Ok b ↔ ∃ a, m = Ok a ∧ f a = Ok b.
Proof.
  destruct m as [a|e]; simpl; split.
  - intros E. by exists a.
  - by intros (a' & [= <-] & E).
  - intros E. discriminate.
  - by intros (a' & E & _).
Qed.

Lemma getslice_Ok {val} (input : Tensor val) (t : nat) (obs : list (list val)) :
  getslice input t = Ok obs ↔ t < (shape input).1.2 ∧ obs = select_time input t.
Proof.
  unfold getslice. destruct (t <? (shape input).1.2) eqn:Et.
  - apply Nat.ltb_lt in Et. split; [by intros [= <-]|by intros [_ ->]].
  - apply Nat.ltb_ge in Et. split; [done|]. intros [Hlt _]. lia.
Qed.

(** ** The progress wrapper *)

Section Progress.
Context {val : Type} `{!TruthValue val}.

(** Under a plain [progress] the loop runs over [range(n)], in order. *)
Lemma plain_progress_iterate (kw : kwargs val) (n : nat) :
  plain_progress kw n →
  ∃ prog, select_progress kw = Ok prog ∧
    iterate prog (seq 0 n) = Ok {| yielded := seq 0 n; raised := None |}.
Proof.
  unfold plain_progress, select_progress.
  destruct (kw !! "progress") as [[x|dts|[|]| |f]|]; intros Hp; try done.
  - by exists tqdm.
  - by exists identity.
  - by exists identity.
  - exists (wrapper f). simpl. by rewrite Hp.
  - by exists identity.
Qed.

Lemma plain_progress_insert (kw : kwargs val) (n : nat) (k : string) (v : kwarg val) :
  k ≠ "progress" → plain_progress kw n → plain_progress (<[k := v]> kw) n.
Proof. intros Hk. unfold plain_progress. by rewrite lookup_insert_ne. Qed.

(** What the choice of the wrapper, its call and the end of its iteration
    raise: the exception of the caller's own code, or the call of a value
    that is no callable. *)
Lemma select_progress_Raise (kw : kwargs val) e :
  select_progress kw = Raise e → ∃ msg, e = External msg.
Proof.
  unfold select_progress, call.
  destruct (kw !! "progress") as [[x|dts|[|]| |f]|]; try done.
  - destruct (bool_of_tensor x); simpl; [|done]. intros [= <-]. by eexists.
  - destruct (bool_of_array dts); simpl; [|done]. intros [= <-]. by eexists.
Qed.

Lemma iterate_Raise prog r e :
  iterate prog r = Raise e → e = NotCallable ∨ ∃ msg, e = External msg.
Proof.
  unfold iterate, call. destruct prog as [| |f|]; try done.
  - destruct (f r); [|done]. intros [= <-]. right. by eexists.
  - intros [= <-]. by left.
Qed.

Lemma exhaust_Raise iterator e :
  exhaust iterator = Raise e → ∃ msg, e = External msg.
Proof.
  unfold exhaust. destruct (raised iterator); [|done]. intros [= <-]. by eexists.
Qed.

End Progress.

(** ** The recursion of [forward] *)

Section Filter.
Context {val M B : Type} `{!TruthValue val} `{!StateBelief val M B}.

Implicit Types (d : DesignForBatch.t M) (input : Tensor val) (b sp : B).

(** What one turn of the loop of [forward] computes: it returns when the
    design has the matrices it reads and the input has the timestep before
    [t]. *)
Lemma forward_body_Ok d input t sp acc sp' acc' :
  KalmanFilter.forward_body d input t sp acc = Ok (sp', acc') ↔
  filtered_at d input t sp sp' ∧ acc' = acc ++ [sp'] ∧ t ≤ (shape input).1.2.
Proof.
  unfold KalmanFilter.forward_body, filtered_at. destruct t as [|t']; simpl.
  - split.
    + intros E. apply bind_Ok in E as (Hm & EH & E). apply bind_Ok in E as (Rm & ER & E).
      apply getitem_Ok in EH, ER. injection E as <- <-.
      split; [by exists Hm, Rm|]. split; [done|lia].
    + intros ((Hm & Rm & EH & ER & ->) & -> & _).
      apply getitem_Ok in EH, ER. by rewrite EH, ER.
  - rewrite Nat.sub_0_r. split.
    + intros E. apply bind_Ok in E as (p & Ep & E).
      apply bind_Ok in Ep as (obs & Eo & Ep).
      apply bind_Ok in Ep as (Fm & EF & Ep). apply bind_Ok in Ep as (Qm & EQ & Ep).
      apply bind_Ok in E as (Hm & EH & E). apply bind_Ok in E as (Rm & ER & E).
      apply getslice_Ok in Eo as [Hlt ->].
      apply getitem_Ok in EF, EQ, EH, ER. injection Ep as <-. injection E as <- <-.
      split; [|split; [done|lia]].
      exists Hm, Rm. repeat split; try done. by exists Fm, Qm.
    + intros ((Hm & Rm & EH & ER & Fm & Qm & EF & EQ & ->) & -> & Hlt).
      assert (getslice input t' = Ok (select_time input t')) as Eo.
      { apply getslice_Ok. split; [lia|done]. }
      apply getitem_Ok in EF, EQ, EH, ER. rewrite Eo. simpl. by rewrite EF, EQ, EH, ER.
Qed.

(** A turn of the loop succeeds when the design covers its timestep and
    the input has that many timesteps. *)
Lemma forward_body_total d input n t sp acc :
  DesignForBatch.covers d n → n ≤ (shape input).1.2 → t < n →
  ∃ sp', KalmanFilter.forward_body d input t sp acc = Ok (sp', acc ++ [sp']).
Proof.
  intros (LF & LH & LQ & LR) Hn Ht.
  destruct (getitem_lt (DesignForBatch.H d) t) as (Hm & _ & EH); [lia|].
  destruct (getitem_lt (DesignForBatch.R d) t) as (Rm & _ & ER); [lia|].
  destruct t as [|t'].
  - eexists. apply forward_body_Ok. split; [|split; [done|lia]]. by exists Hm, Rm.
  - destruct (getitem_lt (DesignForBatch.F d) t') as (Fm & _ & EF); [lia|].
    destruct (getitem_lt (DesignForBatch.Q d) t') as (Qm & _ & EQ); [lia|].
    eexists. apply forward_body_Ok. split; [|split; [done|lia]].
    exists Hm, Rm. repeat split; try done. by exists Fm, Qm.
Qed.

(** The loop over [range(start, start + n)]: it appends one belief per
    timestep, each made of the one before it. *)
Lemma forward_loop_Ok d input n : ∀ start sp acc out,
  KalmanFilter.forward_loop d input (seq start n) sp acc = Ok out →
  ∃ new, out = acc ++ new ∧ length new = n ∧
    ∀ i, i < n → ∃ carried b,
      carried_into sp new i = Some carried ∧ new !! i = Some b ∧
      filtered_at d input (start + i) carried b.
Proof.
  induction n as [|n IH]; intros start sp acc out E; simpl in E.
  - injection E as <-. exists []. rewrite app_nil_r. repeat split; try done. intros i Hi. lia.
  - apply bind_Ok in E as ([sp' acc'] & Eb & E).
    apply forward_body_Ok in Eb as (Hf & -> & _).
    apply IH in E as (new & -> & Hlen & Hnew).
    exists (sp' :: new). rewrite <- app_assoc.
    split; [done|]. split; [simpl; lia|].
    intros [|i] Hi.
    + exists sp, sp'. rewrite Nat.add_0_r. by repeat split.
    + destruct (Hnew i) as (carried & b & Hc & Hb & Hfb); [lia|].
      exists carried, b. replace (start + S i) with (S start + i) by lia.
      by repeat split.
Qed.

Lemma forward_loop_total d input T n : ∀ start sp acc,
  DesignForBatch.covers d T → T ≤ (shape input).1.2 → start + n ≤ T →
  ∃ out, KalmanFilter.forward_loop d input (seq start n) sp acc = Ok out.
Proof.
  induction n as [|n IH]; intros start sp acc Hc HT Hn; simpl.
  - by eexists.
  - destruct (forward_body_total d input T start sp acc Hc HT) as (sp' & ->); [lia|]. simpl.
    apply IH; [done|done|lia].
Qed.



(** [forward], read off its result. *)
Lemma forward_Ok (self : KalmanFilter.t val M) input initial_state kw g T m out :
  shape input = (g, T, m) →
  plain_progress kw T →
  KalmanFilter.forward self input initial_state kw = Ok out →
  m = KalmanFilter.measure_size self ∧
  ∃ d, Design.for_batch (KalmanFilter.design self) g T (<["input" := KwTensor input]> kw)
         = inr d ∧
    length (StateBeliefOverTime.state_beliefs out) = T ∧
    ∀ t, t < T → ∃ carried b,
      carried_into (KalmanFilter.initial_prediction d g initial_state)
        (StateBeliefOverTime.state_beliefs out) t = Some carried ∧
      StateBeliefOverTime.state_beliefs out !! t = Some b ∧
      filtered_at d input t carried b.
Proof.
  intros Hs Hp. unfold KalmanFilter.forward. rewrite Hs.
  destruct (m =? KalmanFilter.measure_size self) eqn:Em; simpl; [|done].
  apply Nat.eqb_eq in Em. intros E. split; [done|].
  destruct (Design.for_batch _ _ _ _) as [msg|d]; simpl in E; [done|].
  exists d. split; [done|].
  destruct (plain_progress_iterate (<["input" := KwTensor input]> kw) T) as (prog & Ep & Ei).
  { by apply plain_progress_insert. }
  rewrite Ep in E. simpl in E. rewrite Ei in E. simpl in E.
  apply bind_Ok in E as (beliefs & El & [= <-]). simpl.
  apply forward_loop_Ok in El as (new & -> & Hlen & Hnew).
  simpl. split; [done|]. intros t Ht. destruct (Hnew t Ht) as (c & b & ? & ? & ?).
  by exists c, b.
Qed.

Lemma forward_total (self : KalmanFilter.t val M) input initial_state kw g T m d :
  shape input = (g, T, m) → m = KalmanFilter.measure_size self →
  Design.for_batch (KalmanFilter.design self) g T (<["input" := KwTensor input]> kw) = inr d →
  DesignForBatch.covers d T →
  plain_progress kw T →
  ∃ out, KalmanFilter.forward self input initial_state kw = Ok out.
Proof.
  intros Hs -> Hd Hc Hp. unfold KalmanFilter.forward. rewrite Hs, Nat.eqb_refl, Hd. simpl.
  destruct (plain_progress_iterate (<["input" := KwTensor input]> kw) T) as (prog & -> & Ei).
  { by apply plain_progress_insert. }
  simpl. rewrite Ei. simpl.
  destruct (forward_loop_total d input T T 0
              (KalmanFilter.initial_prediction d g initial_state) [] Hc) as (l & ->).
  { rewrite Hs. simpl. lia. }
  { lia. }
  simpl. by eexists.
Qed.



(** C1. On an input of [T] timesteps that the filter accepts, with a batch
    design that covers the [T] timesteps, and with a [progress] that is
    missing, [None], a boolean, or a callable that yields the timesteps of
    [range(T)] as they come, [forward] returns [T] beliefs;
    the belief of timestep 0 is the initial prediction with the measurement
    computed from [H[0]], [R[0]], and the belief of a timestep [t > 0] is
    made of the belief of [t - 1] by [update] with the observation at
    [t - 1], then [predict] with [F[t-1]], [Q[t-1]], then
    [compute_measurement] with [H[t]], [R[t]]. *)
Theorem forward_one_step_ahead (self : KalmanFilter.t val M) input initial_state kw g T m d :
  shape input = (g, T, m) → m = KalmanFilter.measure_size self →
  Design.for_batch (KalmanFilter.design self) g T (<["input" := KwTensor input]> kw) = inr d →
  DesignForBatch.covers d T →
  plain_progress kw T →
  ∃ out, KalmanFilter.forward self input initial_state kw = Ok out ∧
    length (StateBeliefOverTime.state_beliefs out) = T ∧
    ∀ t, t < T → ∃ b Hm Rm,
      StateBeliefOverTime.state_beliefs out !! t = Some b ∧
      DesignForBatch.H d !! t = Some Hm ∧ DesignForBatch.R d !! t = Some Rm ∧
      match t with
      | 0 => b = compute_measurement
                   (KalmanFilter.initial_prediction d g initial_state) Hm Rm
      | S t' => ∃ prev Fm Qm,
          StateBeliefOverTime.state_beliefs out !! t' = Some prev ∧
          DesignForBatch.F d !! t' = Some Fm ∧ DesignForBatch.Q d !! t' = Some Qm ∧
          b = compute_measurement
                (predict (update prev (select_time input t')) Fm Qm) Hm Rm
      end.
Proof.
  intros Hs Hm Hd Hc Hp.
  destruct (forward_total self input initial_state kw g T m d Hs Hm Hd Hc Hp) as [out E].
  exists out. split; [done|].
  destruct (forward_Ok self input initial_state kw g T m out Hs Hp E)
    as (_ & d' & Hd' & Hlen & Hrec).
  rewrite Hd in Hd'. injection Hd' as <-. split; [done|].
  intros t Ht. destruct (Hrec t Ht) as (carried & b & Hcar & Hb & Hm' & Rm & EH & ER & Hstep).
  exists b, Hm', Rm. repeat split; try done.
  destruct t as [|t']; simpl in Hcar.
  - by injection Hcar as <-.
  - destruct Hstep as (Fm & Qm & EF & EQ & ->). by exists carried, Fm, Qm.
Qed.



(** C4, amended. Two runs of [forward] from the same initial prediction,
    on inputs with the same observations at every timestep before [t], and
    with batch designs that agree through [t], return the same belief at
    index [t], when [progress] is missing, [None], a boolean, or a callable
    that yields the timesteps of the range of either input as they come.
    The batch design is part of the condition because [forward] hands the
    whole input to [Design.for_batch], as [kwargs['input']]. *)
Theorem forward_reads_the_past (self : KalmanFilter.t val M)
    x1 x2 initial_state kw g1 T1 m1 g2 T2 m2 d1 d2 out1 out2 t :
  shape x1 = (g1, T1, m1) → shape x2 = (g2, T2, m2) →
  plain_progress kw T1 → plain_progress kw T2 →
  KalmanFilter.forward self x1 initial_state kw = Ok out1 →
  KalmanFilter.forward self x2 initial_state kw = Ok out2 →
  Design.for_batch (KalmanFilter.design self) g1 T1 (<["input" := KwTensor x1]> kw) = inr d1 →
  Design.for_batch (KalmanFilter.design self) g2 T2 (<["input" := KwTensor x2]> kw) = inr d2 →
  KalmanFilter.initial_prediction d1 g1 initial_state
  = KalmanFilter.initial_prediction d2 g2 initial_state →
  agree_through d1 d2 t →
  same_before x1 x2 t →
  t < T1 → t < T2 →
  StateBeliefOverTime.state_beliefs out1 !! t = StateBeliefOverTime.state_beliefs out2 !! t.
Proof.
  intros Hs1 Hs2 Hp1 Hp2 E1 E2 Hd1 Hd2 Hinit.
  destruct (forward_Ok self x1 initial_state kw g1 T1 m1 out1 Hs1 Hp1 E1)
    as (_ & d1' & Hd1' & _ & Hrec1).
  destruct (forward_Ok self x2 initial_state kw g2 T2 m2 out2 Hs2 Hp2 E2)
    as (_ & d2' & Hd2' & _ & Hrec2).
  rewrite Hd1 in Hd1'. injection Hd1' as <-. rewrite Hd2 in Hd2'. injection Hd2' as <-.
  induction t as [|t IH]; intros [HFQ HHR] Hobs Ht1 Ht2.
  - destruct (Hrec1 0 Ht1) as (c1 & b1 & Hc1 & -> & Hm1 & Rm1 & EH1 & ER1 & ->).
    destruct (Hrec2 0 Ht2) as (c2 & b2 & Hc2 & -> & Hm2 & Rm2 & EH2 & ER2 & ->).
    simpl in Hc1, Hc2. injection Hc1 as <-. injection Hc2 as <-.
    destruct (HHR 0) as [EH ER]; [lia|].
    rewrite EH1, EH2 in EH. rewrite ER1, ER2 in ER.
    injection EH as ->. injection ER as ->. by rewrite Hinit.
  - destruct (Hrec1 (S t) Ht1)
      as (c1 & b1 & Hc1 & -> & Hm1 & Rm1 & EH1 & ER1 & Fm1 & Qm1 & EF1 & EQ1 & ->).
    destruct (Hrec2 (S t) Ht2)
      as (c2 & b2 & Hc2 & -> & Hm2 & Rm2 & EH2 & ER2 & Fm2 & Qm2 & EF2 & EQ2 & ->).
    simpl in Hc1, Hc2.
    assert (StateBeliefOverTime.state_beliefs out1 !! t
            = StateBeliefOverTime.state_beliefs out2 !! t) as Eprev.
    { apply IH; [|intros s Hlt; apply Hobs; lia|lia|lia].
      split; intros s Hlt; [apply HFQ|apply HHR]; lia. }
    rewrite Hc1, Hc2 in Eprev.
    destruct (HHR (S t)) as [EH ER]; [lia|]. destruct (HFQ t) as [EF EQ]; [lia|].
    rewrite EH1, EH2 in EH. rewrite ER1, ER2 in ER.
    rewrite EF1, EF2 in EF. rewrite EQ1, EQ2 in EQ.
    rewrite (Hobs t) by lia.
    injection EH as ->. injection ER as ->. injection EF as ->. injection EQ as ->.
    by injection Eprev as ->.
Qed.

(** C10. With an initial state [s] handed in, at least one timestep, and a
    [progress] that is missing, [None], a boolean, or a callable that
    yields the timesteps of [range(T)] as they come,
    the first belief [forward] returns is [s] with the measurement computed
    from [H[0]], [R[0]]: it has the mean and the covariance of [s], no
    [predict] and no [update] came before it; the observation at timestep
    0 enters through the [update] that makes the belief of timestep 1. *)
Theorem forward_starts_from_initial_state `{!StateBeliefLaws val M B}
    (self : KalmanFilter.t val M) input s kw g T m d :
  shape input = (g, T, m) → m = KalmanFilter.measure_size self →
  Design.for_batch (KalmanFilter.design self) g T (<["input" := KwTensor input]> kw) = inr d →
  DesignForBatch.covers d T →
  plain_progress kw T →
  0 < T →
  ∃ out b0 Hm Rm,
    KalmanFilter.forward self input (Some s) kw = Ok out ∧
    StateBeliefOverTime.state_beliefs out !! 0 = Some b0 ∧
    DesignForBatch.H d !! 0 = Some Hm ∧ DesignForBatch.R d !! 0 = Some Rm ∧
    b0 = compute_measurement s Hm Rm ∧
    means b0 = means s ∧ covs b0 = covs s ∧
    (1 < T → ∃ b1 Fm Qm Hm1 Rm1,
       StateBeliefOverTime.state_beliefs out !! 1 = Some b1 ∧
       DesignForBatch.F d !! 0 = Some Fm ∧ DesignForBatch.Q d !! 0 = Some Qm ∧
       DesignForBatch.H d !! 1 = Some Hm1 ∧ DesignForBatch.R d !! 1 = Some Rm1 ∧
       b1 = compute_measurement (predict (update b0 (select_time input 0)) Fm Qm) Hm1 Rm1).
Proof.
  intros Hs Hm Hd Hc Hp HT.
  destruct (forward_total self input (Some s) kw g T m d Hs Hm Hd Hc Hp) as [out E].
  destruct (forward_Ok self input (Some s) kw g T m out Hs Hp E)
    as (_ & d' & Hd' & _ & Hrec).
  rewrite Hd in Hd'. injection Hd' as <-.
  destruct (Hrec 0 HT) as (c0 & b0 & Hc0 & Hb0 & Hm0 & Rm0 & EH & ER & ->).
  simpl in Hc0. injection Hc0 as <-.
  exists out, (compute_measurement s Hm0 Rm0), Hm0, Rm0.
  repeat split; try done.
  - apply means_compute_measurement.
  - apply covs_compute_measurement.
  - intros HT1. destruct (Hrec 1 HT1)
      as (c1 & b1 & Hc1 & Hb1 & Hm1 & Rm1 & EH1 & ER1 & Fm & Qm & EF & EQ & ->).
    simpl in Hc1. rewrite Hb0 in Hc1. injection Hc1 as <-.
    by exists (compute_measurement (predict (update (compute_measurement s Hm0 Rm0)
                 (select_time input 0)) Fm Qm) Hm1 Rm1), Fm, Qm, Hm1, Rm1.
Qed.

(** ** The recursion of [forecast] *)

Lemma forecast_body_Ok d t sp acc sp' acc' :
  KalmanFilter.forecast_body d t sp acc = Ok (sp', acc') ↔
  forecast_at d t sp sp' ∧ acc' = acc ++ [sp'].
Proof.
  unfold KalmanFilter.forecast_body, forecast_at. destruct t as [|t']; simpl.
  - split.
    + intros E. apply bind_Ok in E as (Hm & EH & E). apply bind_Ok in E as (Rm & ER & E).
      apply getitem_Ok in EH, ER. injection E as <- <-. split; [|done]. by exists Hm, Rm.
    + intros [(Hm & Rm & EH & ER & ->) ->].
      apply getitem_Ok in EH, ER. by rewrite EH, ER.
  - rewrite Nat.sub_0_r. split.
    + intros E. apply bind_Ok in E as (p & Ep & E).
      apply bind_Ok in Ep as (Fm & EF & Ep). apply bind_Ok in Ep as (Qm & EQ & Ep).
      apply bind_Ok in E as (Hm & EH & E). apply bind_Ok in E as (Rm & ER & E).
      apply getitem_Ok in EF, EQ, EH, ER. injection Ep as <-. injection E as <- <-.
      split; [|done]. exists Hm, Rm. repeat split; try done. by exists Fm, Qm.
    + intros [(Hm & Rm & EH & ER & Fm & Qm & EF & EQ & ->) ->].
      apply getitem_Ok in EF, EQ, EH, ER. by rewrite EF, EQ, EH, ER.
Qed.

Lemma forecast_body_total d n t sp acc :
  DesignForBatch.covers d n → t < n →
  ∃ sp', KalmanFilter.forecast_body d t sp acc = Ok (sp', acc ++ [sp']).
Proof.
  intros (LF & LH & LQ & LR) Ht.
  destruct (getitem_lt (DesignForBatch.H d) t) as (Hm & _ & EH); [lia|].
  destruct (getitem_lt (DesignForBatch.R d) t) as (Rm & _ & ER); [lia|].
  destruct t as [|t'].
  - eexists. apply forecast_body_Ok. split; [|done]. by exists Hm, Rm.
  - destruct (getitem_lt (DesignForBatch.F d) t') as (Fm & _ & EF); [lia|].
    destruct (getitem_lt (DesignForBatch.Q d) t') as (Qm & _ & EQ); [lia|].
    eexists. apply forecast_body_Ok. split; [|done].
    exists Hm, Rm. repeat split; try done. by exists Fm, Qm.
Qed.

Lemma forecast_loop_Ok d n : ∀ start sp acc out,
  KalmanFilter.forecast_loop d (seq start n) sp acc = Ok out →
  ∃ new, out = acc ++ new ∧ length new = n ∧
    ∀ i, i < n → ∃ carried b,
      carried_into sp new i = Some carried ∧ new !! i = Some b ∧
      forecast_at d (start + i) carried b.
Proof.
  induction n as [|n IH]; intros start sp acc out E; simpl in E.
  - injection E as <-. exists []. rewrite app_nil_r. repeat split; try done. intros i Hi. lia.
  - apply bind_Ok in E as ([sp' acc'] & Eb & E).
    apply forecast_body_Ok in Eb as [Hf ->].
    apply IH in E as (new & -> & Hlen & Hnew).
    exists (sp' :: new). rewrite <- app_assoc.
    split; [done|]. split; [simpl; lia|].
    intros [|i] Hi.
    + exists sp, sp'. rewrite Nat.add_0_r. by repeat split.
    + destruct (Hnew i) as (carried & b & Hc & Hb & Hfb); [lia|].
      exists carried, b. replace (start + S i) with (S start + i) by lia.
      by repeat split.
Qed.

Lemma forecast_loop_total d T n : ∀ start sp acc,
  DesignForBatch.covers d T → start + n ≤ T →
  ∃ out, KalmanFilter.forecast_loop d (seq start n) sp acc = Ok out.
Proof.
  induction n as [|n IH]; intros start sp acc Hc Hn; simpl.
  - by eexists.
  - destruct (forecast_body_total d T start sp acc Hc) as (sp' & ->); [lia|]. simpl.
    apply IH; [done|lia].
Qed.

Lemma forecast_body_Raise d t sp acc e :
  KalmanFilter.forecast_body d t sp acc = Raise e → ∃ i, e = OutOfRange i.
Proof.
  unfold KalmanFilter.forecast_body, getitem. destruct t as [|t']; simpl.
  - destruct (DesignForBatch.H d !! 0); simpl; [|intros [= <-]; by eexists].
    destruct (DesignForBatch.R d !! 0); simpl; [done|intros [= <-]; by eexists].
  - destruct (DesignForBatch.F d !! (t' - 0)); simpl; [|intros [= <-]; by eexists].
    destruct (DesignForBatch.Q d !! (t' - 0)); simpl; [|intros [= <-]; by eexists].
    destruct (DesignForBatch.H d !! S t'); simpl; [|intros [= <-]; by eexists].
    destruct (DesignForBatch.R d !! S t'); simpl; [done|intros [= <-]; by eexists].
Qed.

Lemma forecast_loop_Raise d ts : ∀ sp acc e,
  KalmanFilter.forecast_loop d ts sp acc = Raise e → ∃ i, e = OutOfRange i.
Proof.
  induction ts as [|t ts IH]; intros sp acc e; simpl; [done|].
  destruct (KalmanFilter.forecast_body d t sp acc) as [[sp' acc']|e'] eqn:Eb; simpl.
  - apply IH.
  - intros [= <-]. by eapply forecast_body_Raise.
Qed.

(** The seed never raises the assertion of the horizon. *)
Lemma seed_Raise (states : StateBeliefOverTime.t val M B) from kw e :
  KalmanFilter.seed states from kw = Raise e → ∃ msg, e = External msg.
Proof.
  unfold KalmanFilter.seed, StateBeliefOverTime.last_prediction, call.
  destruct from as [dts|].
  - destruct (slice_by_dt states dts); simpl; [|done]. intros [= <-]. by eexists.
  - destruct (last _); simpl; [done|]. intros [= <-]. by eexists.
Qed.

(** [forecast] from the last belief, read off its result. *)
Lemma forecast_Ok (self : KalmanFilter.t val M) states h kw seed_b d :
  (0 < h)%Z →
  last (StateBeliefOverTime.state_beliefs states) = Some seed_b →
  Design.for_batch (KalmanFilter.design self) (batch_size seed_b) (Z.to_nat h) kw = inr d →
  DesignForBatch.covers d (Z.to_nat h) →
  plain_progress kw (Z.to_nat h) →
  ∃ out, KalmanFilter.forecast self states h None kw = Ok out ∧
    length (StateBeliefOverTime.state_beliefs out) = Z.to_nat h ∧
    ∀ t, t < Z.to_nat h → ∃ carried b,
      carried_into seed_b (StateBeliefOverTime.state_beliefs out) t = Some carried ∧
      StateBeliefOverTime.state_beliefs out !! t = Some b ∧
      forecast_at d t carried b.
Proof.
  intros Hh Hlast Hd Hc Hp. unfold KalmanFilter.forecast.
  apply Z.ltb_lt in Hh. rewrite Hh. simpl.
  unfold StateBeliefOverTime.last_prediction. rewrite Hlast. simpl. rewrite Hd. simpl.
  destruct (plain_progress_iterate kw (Z.to_nat h) Hp) as (prog & -> & Ei).
  simpl. rewrite Ei. simpl.
  destruct (forecast_loop_total d (Z.to_nat h) (Z.to_nat h) 0 seed_b [] Hc) as (l & El); [lia|].
  rewrite El. simpl. eexists. split; [done|]. simpl.
  apply forecast_loop_Ok in El as (new & -> & Hlen & Hnew). simpl.
  split; [done|]. intros t Ht. destruct (Hnew t Ht) as (c & b & ? & ? & ?). by exists c, b.
Qed.

(** C2, amended. From states with a last belief, for a horizon [h > 0]
    whose batch design covers the [h] steps, and with a [progress] that is
    missing, [None], a boolean, or a callable that yields the steps of
    [range(h)] as they come, [forecast] returns
    exactly [h] beliefs; the first has the mean of the last belief of the
    states as it stands, with no [predict] and no [update] applied; every
    later one has the mean of one [predict] step, with [F] and [Q] of the
    step before and no update, from the belief before it. *)
Theorem forecast_starts_at_last_belief `{!StateBeliefLaws val M B}
    (self : KalmanFilter.t val M) states h kw seed_b d :
  (0 < h)%Z →
  last (StateBeliefOverTime.state_beliefs states) = Some seed_b →
  Design.for_batch (KalmanFilter.design self) (batch_size seed_b) (Z.to_nat h) kw = inr d →
  DesignForBatch.covers d (Z.to_nat h) →
  plain_progress kw (Z.to_nat h) →
  ∃ out b0,
    KalmanFilter.forecast self states h None kw = Ok out ∧
    length (StateBeliefOverTime.state_beliefs out) = Z.to_nat h ∧
    StateBeliefOverTime.state_beliefs out !! 0 = Some b0 ∧
    means b0 = means seed_b ∧
    ∀ t, S t < Z.to_nat h → ∃ prev b Fm Qm,
      StateBeliefOverTime.state_beliefs out !! t = Some prev ∧
      StateBeliefOverTime.state_beliefs out !! S t = Some b ∧
      DesignForBatch.F d !! t = Some Fm ∧ DesignForBatch.Q d !! t = Some Qm ∧
      means b = means (predict prev Fm Qm).
Proof.
  intros Hh Hlast Hd Hc Hp.
  destruct (forecast_Ok self states h kw seed_b d Hh Hlast Hd Hc Hp)
    as (out & E & Hlen & Hrec).
  destruct (Hrec 0) as (c0 & b0 & Hc0 & Hb0 & Hm0 & Rm0 & _ & _ & ->); [lia|].
  simpl in Hc0. injection Hc0 as <-.
  exists out, (compute_measurement seed_b Hm0 Rm0).
  repeat split; try done.
  - apply means_compute_measurement.
  - intros t Ht. destruct (Hrec (S t) Ht)
      as (c & b & Hcar & Hb & Hm & Rm & _ & _ & Fm & Qm & EF & EQ & ->).
    simpl in Hcar. exists c, (compute_measurement (predict c Fm Qm) Hm Rm), Fm, Qm.
    repeat split; try done. apply means_compute_measurement.
Qed.

(** C8. With a horizon [h <= 0], [forecast] and [simulate] both fail on
    the assertion, whatever the states, the design and the keyword
    arguments are: nothing of them is looked at before. With [h > 0]
    neither fails on the assertion. *)
Theorem horizon_is_asserted (self : KalmanFilter.t val M) states h from kw :
  ((h ≤ 0)%Z →
   KalmanFilter.forecast self states h from kw = Raise HorizonAssertion ∧
   KalmanFilter.simulate self states h from kw = Raise HorizonAssertion) ∧
  ((0 < h)%Z →
   KalmanFilter.forecast self states h from kw ≠ Raise HorizonAssertion ∧
   KalmanFilter.simulate self states h from kw ≠ Raise HorizonAssertion).
Proof.
  unfold KalmanFilter.forecast, KalmanFilter.simulate. split.
  - intros Hh. apply Z.ltb_ge in Hh. by rewrite Hh.
  - intros Hh. apply Z.ltb_lt in Hh. rewrite Hh. simpl.
    destruct (KalmanFilter.seed states from kw) as [[b kw']|e] eqn:Es; simpl.
    + destruct (Design.for_batch _ _ _ _) as [msg|d]; simpl; [done|].
      split; [|done].
      destruct (select_progress kw') as [prog|e] eqn:Ep; simpl.
      2: { apply select_progress_Raise in Ep as [msg ->]. done. }
      destruct (iterate _ _) as [iterator|e] eqn:Ei; simpl.
      2: { apply iterate_Raise in Ei as [->|[msg ->]]; done. }
      destruct (KalmanFilter.forecast_loop _ _ _ _) as [l|e] eqn:El; simpl.
      2: { apply forecast_loop_Raise in El as [i ->]. done. }
      destruct (exhaust iterator) as [[]|e] eqn:Ee; simpl; [done|].
      apply exhaust_Raise in Ee as [msg ->]. done.
    + apply seed_Raise in Es as [msg ->]. done.
Qed.

End Filter.

(** ** The Gaussian family in dimension one, run on inputs *)

Module Gaussian1Facts.
Import Gaussian1.

Lemma gaussian_laws : StateBeliefLaws value matrix belief.
Proof.
  split; simpl.
  - intros b Hm Rm. unfold compute_measurement_batch.
    apply list_eq. intros i. rewrite !list_lookup_fmap, list_lookup_imap.
    by destruct (b !! i).
  - intros b Hm Rm. unfold compute_measurement_batch.
    apply list_eq. intros i. rewrite !list_lookup_fmap, list_lookup_imap.
    by destruct (b !! i).
  - intros b Hm Rm. apply length_imap.
  - intros b Fm Qm. apply length_imap.
  - intros b obs. apply length_imap.
Qed.

Lemma constant_design_covers f h q r g n :
  DesignForBatch.covers (constant_design_for_batch f h q r g n) n.
Proof. unfold DesignForBatch.covers. simpl. by rewrite !length_replicate. Qed.

Lemma filtered_returned :
  KalmanFilter.forward doubling_filter two_groups None ∅ = Ok filtered.
Proof. reflexivity. Qed.

Lemma forecasted_returned :
  KalmanFilter.forecast doubling_filter filtered 4 None ∅ = Ok forecasted.
Proof. reflexivity. Qed.

(** The recursion of C1 on two groups over five timesteps. *)
Lemma forward_one_step_ahead_witness :
  ∃ out, KalmanFilter.forward doubling_filter two_groups None ∅ = Ok out ∧
         length (StateBeliefOverTime.state_beliefs out) = 5.
Proof.
  destruct (forward_one_step_ahead doubling_filter two_groups None ∅ 2 5 1
              (constant_design_for_batch 2 1 (1 # 2) 1 2 5))
    as (out & E & L & _).
  - reflexivity.
  - reflexivity.
  - reflexivity.
  - apply constant_design_covers.
  - exact I.
  - exists out. split; assumption.
Defined.



(** The amended C4 on two inputs that differ at the last timestep only,
    under a design that does not read the input. *)
Lemma forward_reads_the_past_witness :
  same_before two_groups two_groups_other_end 4 ∧
  StateBeliefOverTime.state_beliefs filtered !! 4
  = StateBeliefOverTime.state_beliefs filtered_other_end !! 4.
Proof.
  assert (same_before two_groups two_groups_other_end 4) as Hsame.
  { intros s Hs. do 4 (destruct s as [|s]; [reflexivity|]). lia. }
  split; [exact Hsame|].
  apply (forward_reads_the_past doubling_filter two_groups two_groups_other_end None ∅
           2 5 1 2 5 1
           (constant_design_for_batch 2 1 (1 # 2) 1 2 5)
           (constant_design_for_batch 2 1 (1 # 2) 1 2 5)).
  - reflexivity.
  - reflexivity.
  - exact I.
  - exact I.
  - reflexivity.
  - reflexivity.
  - reflexivity.
  - reflexivity.
  - reflexivity.
  - split; intros s Hs; split; reflexivity.
  - exact Hsame.
  - lia.
  - lia.
Defined.

(** C4 as stated fails: under a design whose process takes [input], two
    inputs that differ in the last observation only (2 against 5, at
    timestep 1) get different beliefs at index 1, with state means 3/10
    and 6/37. *)
Lemma forward_reads_the_whole_input :
  shape ends_with_2 = shape ends_with_5 ∧
  same_before ends_with_2 ends_with_5 1 ∧
  KalmanFilter.forward input_adjusted_filter ends_with_2 None ∅ = Ok filtered_2 ∧
  KalmanFilter.forward input_adjusted_filter ends_with_5 None ∅ = Ok filtered_5 ∧
  StateBeliefOverTime.state_beliefs filtered_2 !! 1 = Some second_of_2 ∧
  StateBeliefOverTime.state_beliefs filtered_5 !! 1 = Some second_of_5 ∧
  means second_of_2 = [3 # 10]%Q ∧ means second_of_5 = [6 # 37]%Q ∧
  second_of_2 ≠ second_of_5.
Proof.
  split; [reflexivity|]. split.
  { intros s Hs. destruct s as [|s]; [reflexivity|lia]. }
  split; [reflexivity|]. split; [reflexivity|].
  split; [vm_compute; reflexivity|]. split; [vm_compute; reflexivity|].
  split; [vm_compute; reflexivity|]. split; [vm_compute; reflexivity|].
  intros E. apply (f_equal means) in E. vm_compute in E. discriminate E.
Qed.

(** C10 on two groups over five timesteps, from [handed_in]. *)
Lemma forward_starts_from_initial_state_witness :
  ∃ out b0,
    KalmanFilter.forward doubling_filter two_groups (Some handed_in) ∅ = Ok out ∧
    StateBeliefOverTime.state_beliefs out !! 0 = Some b0 ∧
    means b0 = means handed_in ∧ covs b0 = covs handed_in.
Proof.
  destruct (forward_starts_from_initial_state (StateBeliefLaws0 := gaussian_laws)
              doubling_filter two_groups handed_in ∅ 2 5 1
              (constant_design_for_batch 2 1 (1 # 2) 1 2 5))
    as (out & b0 & Hm & Rm & E & Hb0 & _ & _ & _ & Emean & Ecov & _).
  - reflexivity.
  - reflexivity.
  - reflexivity.
  - apply constant_design_covers.
  - exact I.
  - lia.
  - exists out, b0. repeat split; assumption.
Defined.

(** The amended C2 on the forecast of four steps from [filtered]. *)
Lemma forecast_starts_at_last_belief_witness :
  ∃ out b0,
    KalmanFilter.forecast doubling_filter filtered 4 None ∅ = Ok out ∧
    length (StateBeliefOverTime.state_beliefs out) = 4 ∧
    StateBeliefOverTime.state_beliefs out !! 0 = Some b0 ∧
    means b0 = means last_filtered.
Proof.
  destruct (forecast_starts_at_last_belief (StateBeliefLaws0 := gaussian_laws)
              doubling_filter filtered 4 ∅ last_filtered
              (constant_design_for_batch 2 1 (1 # 2) 1 2 4))
    as (out & b0 & E & L & Hb0 & Emean & _).
  - lia.
  - reflexivity.
  - reflexivity.
  - apply constant_design_covers.
  - exact I.
  - exists out, b0. repeat split; assumption.
Defined.

(** C2 as stated fails: of the four beliefs forecast from the five
    filtered ones, the first has the means of the last filtered belief,
    (1362/209, 1410/559), and not those of one [predict] step from it with
    [F[0]] and [Q[0]], (2724/209, 2820/559). *)
Lemma forecast_first_is_not_a_predict_step :
  KalmanFilter.forward doubling_filter two_groups None ∅ = Ok filtered ∧
  KalmanFilter.forecast doubling_filter filtered 4 None ∅ = Ok forecasted ∧
  length (StateBeliefOverTime.state_beliefs filtered) = 5 ∧
  length (StateBeliefOverTime.state_beliefs forecasted) = 4 ∧
  last (StateBeliefOverTime.state_beliefs filtered) = Some last_filtered ∧
  StateBeliefOverTime.state_beliefs forecasted !! 0 = Some first_forecasted ∧
  Design.for_batch (KalmanFilter.design doubling_filter) (batch_size last_filtered) 4 ∅
  = inr forecast_design ∧
  DesignForBatch.F forecast_design !! 0 = Some [2; 2]%Q ∧
  DesignForBatch.Q forecast_design !! 0 = Some [1 # 2; 1 # 2]%Q ∧
  means first_forecasted = [1362 # 209; 1410 # 559]%Q ∧
  means last_filtered = [1362 # 209; 1410 # 559]%Q ∧
  means (predict last_filtered [2; 2]%Q [1 # 2; 1 # 2]%Q) = [2724 # 209; 2820 # 559]%Q ∧
  means first_forecasted ≠ means (predict last_filtered [2; 2]%Q [1 # 2; 1 # 2]%Q).
Proof.
  split; [reflexivity|]. split; [reflexivity|].
  split; [vm_compute; reflexivity|]. split; [vm_compute; reflexivity|].
  split; [vm_compute; reflexivity|]. split; [vm_compute; reflexivity|].
  split; [vm_compute; reflexivity|].
  split; [reflexivity|]. split; [reflexivity|].
  split; [vm_compute; reflexivity|]. split; [vm_compute; reflexivity|].
  split; [vm_compute; reflexivity|].
  intros E. vm_compute in E. discriminate E.
Qed.

End Gaussian1Facts.

(** ** The process base class *)

Module ProcessFacts.
Import Process.

(** *** Validation at construction *)

Lemma size_list_to_set_le (l : list string) :
  size (list_to_set l : gset string) ≤ length l.
Proof.
  induction l as [|x l IH].
  - by rewrite list_to_set_nil, size_empty.
  - rewrite list_to_set_cons, size_union_alt, size_singleton. simpl length.
    assert (size (list_to_set l ∖ {[x]} : gset string) ≤ size (list_to_set l : gset string))
      as Hle by (apply subseteq_size, subseteq_difference_l; reflexivity).
    lia.
Qed.

(** [len(xs) == len(set(xs))] says that no name occurs twice. *)
Lemma length_eq_size_NoDup (l : list string) :
  length l = size (list_to_set l : gset string) ↔ NoDup l.
Proof.
  split; [|intros Hnd; by rewrite size_list_to_set].
  induction l as [|x l IH]; intros E; [constructor|].
  rewrite list_to_set_cons in E. simpl length in E.
  destruct (decide (x ∈ l)) as [Hin|Hin].
  - assert ({[x]} ∪ list_to_set l = (list_to_set l : gset string)) as Eu.
    { apply subseteq_union_1_L, singleton_subseteq_l. by apply elem_of_list_to_set. }
    rewrite Eu in E. pose proof (size_list_to_set_le l). lia.
  - rewrite size_union, size_singleton in E.
    2: { apply disjoint_singleton_l. by rewrite elem_of_list_to_set. }
    constructor; [done|]. apply IH. lia.
Qed.

Lemma isdisjoint_true (a b : list string) :
  isdisjoint (list_to_set a) b = true ↔ ∀ x, x ∈ a → x ∉ b.
Proof.
  unfold isdisjoint. rewrite <- Is_true_true, forallb_True, Forall_forall. split.
  - intros Hall x Ha Hb. specialize (Hall x Hb). apply bool_decide_unpack in Hall.
    apply Hall. by apply elem_of_list_to_set.
  - intros Hdis x Hb. apply bool_decide_pack. intros Ha.
    apply elem_of_list_to_set in Ha. by apply (Hdis x).
Qed.

Lemma isdisjoint_false (a b : list string) :
  isdisjoint (list_to_set a) b = false ↔ ∃ x, x ∈ a ∧ x ∈ b.
Proof.
  split.
  - intros E. unfold isdisjoint in E.
    induction b as [|y b IH]; simpl in E; [done|].
    apply andb_false_iff in E as [E|E].
    + apply bool_decide_eq_false in E. exists y. split; [|left].
      destruct (decide (y ∈ (list_to_set a : gset string))) as [Hy|Hy].
      * by apply elem_of_list_to_set in Hy.
      * by destruct E.
    + destruct (IH E) as (x & Ha & Hb). exists x. split; [done|by right].
  - intros (x & Ha & Hb).
    destruct (isdisjoint (list_to_set a) b) eqn:E; [|done].
    pose proof (proj1 (isdisjoint_true a b) E x Ha) as Hnot. by destruct Hnot.
Qed.

(** [_validate] on an allocated process. *)
Lemma validate_run (h : heap) self p :
  h !! self = Some (ProcessObject p) →
  _validate self h =
    (if negb (length (state_elements p)
                =? size (list_to_set (state_elements p) : gset string)) then
       Raise DuplicateStateElements
     else if negb (isdisjoint
                     (list_to_set (dynamic_state_elements (cls p) (state_elements p)))
                     (fixed_state_elements (cls p) (state_elements p))) then
       Raise FixedAlsoDynamic
     else Ok (), h).
Proof.
  intros Hp. unfold _validate, mbind, st_bind, get_process. rewrite Hp.
  destruct (negb _); [done|]. by destruct (negb _).
Qed.

(** C7. The constructor raises [Duplicate state_elements] when a name
    occurs twice among the state elements, raises the misconfiguration
    error when there is none but a dynamic state element is also fixed
    (both are structural errors, raised before the constructor returns),
    and otherwise returns a new process, with the identifier and the state
    elements it was given, that has both properties: no name twice, no
    dynamic element fixed. *)
Theorem init_validates (c : class) (i : string) (se : list string) (h : heap) :
  structural DuplicateStateElements = true ∧ structural FixedAlsoDynamic = true ∧
  (¬ NoDup se → (__init__ c i se h).1 = Raise DuplicateStateElements) ∧
  (NoDup se →
   (∃ x, x ∈ dynamic_state_elements c se ∧ x ∈ fixed_state_elements c se) →
   (__init__ c i se h).1 = Raise FixedAlsoDynamic) ∧
  (NoDup se →
   (∀ x, x ∈ dynamic_state_elements c se → x ∉ fixed_state_elements c se) →
   ∃ self h' p,
     __init__ c i se h = (Ok self, h') ∧
     h !! self = None ∧ h' !! self = Some (ProcessObject p) ∧
     cls p = c ∧ id p = i ∧ state_elements p = se ∧
     NoDup (state_elements p) ∧
     ∀ x, x ∈ dynamic_state_elements (cls p) (state_elements p) →
          x ∉ fixed_state_elements (cls p) (state_elements p)).
Proof.
  split; [done|]. split; [done|].
  unfold __init__, mbind, st_bind, alloc. simpl.
  set (l1 := fresh (dom h)).
  set (h1 := <[l1 := MatrixObject (DesignMatrix.new se se)]> h).
  set (l2 := fresh (dom h1)).
  set (h2 := <[l2 := MatrixObject (DesignMatrix.new [] se)]> h1).
  set (l3 := fresh (dom h2)).
  set (h3 := <[l3 := MatrixObject (DesignMatrix.new se (dynamic_state_elements c se))]> h2).
  set (self := fresh (dom h3)).
  set (p := {| cls := c; id := i; state_elements := se; transition_mat := l1;
               measure_mat := l2; variance_multi_mat := l3; batch_info := None |}).
  rewrite (validate_run _ self p) by apply lookup_insert_eq. simpl.
  split; [|split].
  - intros Hdup. destruct (length se =? _) eqn:E; simpl; [|done].
    apply Nat.eqb_eq, length_eq_size_NoDup in E. done.
  - intros Hnd Hboth. apply length_eq_size_NoDup, Nat.eqb_eq in Hnd. rewrite Hnd. simpl.
    apply isdisjoint_false in Hboth. by rewrite Hboth.
  - intros Hnd Hdis. pose proof Hnd as Hnd'.
    apply length_eq_size_NoDup, Nat.eqb_eq in Hnd. rewrite Hnd. simpl.
    rewrite (proj2 (isdisjoint_true _ _) Hdis). simpl.
    exists self, (<[self := ProcessObject p]> h3), p.
    repeat split; try done.
    + assert (self ∉ dom h3) as Hfresh by apply is_fresh.
      apply not_elem_of_dom. unfold h3, h2, h1 in Hfresh.
      rewrite !dom_insert_L in Hfresh. set_solver.
    + apply lookup_insert_eq.
Qed.

(** *** [for_batch] *)

Lemma fresh_lookup (h : heap) : h !! fresh (dom h) = None.
Proof. apply not_elem_of_dom, is_fresh. Qed.

Lemma bind_run {A B} (m : st A) (f : A → st B) (h : heap) :
  (m ≫= f) h = match m h with
               | (Ok a, h') => f a h'
               | (Raise e, h') => (Raise e, h')
               end.
Proof. reflexivity. Qed.

Lemma get_process_run (h : heap) l p :
  h !! l = Some (ProcessObject p) → get_process l h = (Ok p, h).
Proof. intros E. unfold get_process. by rewrite E. Qed.

Lemma get_matrix_run (h : heap) l m :
  h !! l = Some (MatrixObject m) → get_matrix l h = (Ok m, h).
Proof. intros E. unfold get_matrix. by rewrite E. Qed.

Lemma measures_run (h : heap) self p mm :
  h !! self = Some (ProcessObject p) →
  h !! measure_mat p = Some (MatrixObject mm) →
  measures self h = (Ok (DesignMatrix.measures mm), h).
Proof.
  intros Hp Hmm. unfold measures.
  rewrite bind_run, (get_process_run h self p Hp).
  rewrite bind_run, (get_matrix_run h _ mm Hmm). done.
Qed.

Lemma setattr_run (h : heap) l q f :
  h !! l = Some (ProcessObject q) →
  setattr l f h = (Ok (), <[l := ProcessObject (f q)]> h).
Proof. intros E. unfold setattr. by rewrite bind_run, (get_process_run h l q E). Qed.

Lemma matrix_for_batch_run (h : heap) l m g t :
  h !! l = Some (MatrixObject m) →
  matrix_for_batch l g t h
  = (Ok (fresh (dom h)),
     <[fresh (dom h) := MatrixObject (DesignMatrix.for_batch m g t)]> h).
Proof.
  intros E. unfold matrix_for_batch. by rewrite bind_run, (get_matrix_run h l m E).
Qed.

Lemma fresh_ne (h : heap) l o : h !! l = Some o → fresh (dom h) ≠ l.
Proof. intros E Heq. rewrite <- Heq, fresh_lookup in E. done. Qed.

Lemma for_batch_no_measures (h : heap) self g t p mm :
  h !! self = Some (ProcessObject p) →
  h !! measure_mat p = Some (MatrixObject mm) →
  DesignMatrix.measures mm = [] →
  for_batch self g t h = (Raise (NoMeasures (id p)), h).
Proof.
  intros Hp Hmm Hnone. unfold for_batch.
  rewrite bind_run, (get_process_run h self p Hp).
  rewrite bind_run, (measures_run h self p mm Hp Hmm), Hnone. done.
Qed.

Lemma for_batch_no_transitions (h : heap) self g t p mm tm :
  h !! self = Some (ProcessObject p) →
  h !! measure_mat p = Some (MatrixObject mm) →
  h !! transition_mat p = Some (MatrixObject tm) →
  DesignMatrix.measures mm ≠ [] →
  DesignMatrix.empty tm = true →
  for_batch self g t h = (Raise (NoTransitions (id p)), h).
Proof.
  intros Hp Hmm Htm Hsome Hnone. unfold for_batch.
  rewrite bind_run, (get_process_run h self p Hp).
  rewrite bind_run, (measures_run h self p mm Hp Hmm).
  rewrite bool_decide_eq_false_2 by done.
  rewrite bind_run, (get_matrix_run h _ tm Htm), Hnone. done.
Qed.

Lemma for_batch_run (h : heap) self g t p tm mm vm :
  h !! self = Some (ProcessObject p) →
  h !! transition_mat p = Some (MatrixObject tm) →
  h !! measure_mat p = Some (MatrixObject mm) →
  h !! variance_multi_mat p = Some (MatrixObject vm) →
  DesignMatrix.measures mm ≠ [] →
  DesignMatrix.empty tm = false →
  ∃ fb lv lm lt,
    h !! fb = None ∧ h !! lv = None ∧ h !! lm = None ∧ h !! lt = None ∧
    NoDup [fb; lv; lm; lt] ∧
    for_batch self g t h =
      (Ok fb,
       <[fb := ProcessObject
                 {| cls := cls p; id := id p; state_elements := state_elements p;
                    transition_mat := lt; measure_mat := lm; variance_multi_mat := lv;
                    batch_info := Some (g, t) |}]>
         (<[lt := MatrixObject (DesignMatrix.for_batch tm g t)]>
            (<[lm := MatrixObject (DesignMatrix.for_batch mm g t)]>
               (<[lv := MatrixObject (DesignMatrix.for_batch vm g t)]> h)))).
Proof.
  intros Hp Htm Hmm Hvm Hsome Hnone. unfold for_batch.
  rewrite bind_run, (get_process_run h self p Hp).
  rewrite bind_run, (measures_run h self p mm Hp Hmm).
  rewrite bool_decide_eq_false_2 by done.
  rewrite bind_run, (get_matrix_run h _ tm Htm), Hnone.
  rewrite bind_run. unfold alloc at 1.
  set (fb := fresh (dom h)).
  pose proof (fresh_lookup h) as Ffb. fold fb in Ffb.
  pose proof (fresh_ne h _ _ Htm) as Nt. pose proof (fresh_ne h _ _ Hmm) as Nm.
  pose proof (fresh_ne h _ _ Hvm) as Nv. fold fb in Nt, Nm, Nv.
  set (h1 := <[fb := ProcessObject p]> h).
  rewrite bind_run, (setattr_run h1 fb p) by apply lookup_insert_eq.
  set (h2 := <[fb := ProcessObject (with_batch_info (g, t) p)]> h1).
  assert (h2 !! variance_multi_mat p = Some (MatrixObject vm)) as Hvm2.
  { unfold h2, h1. by rewrite !lookup_insert_ne. }
  rewrite bind_run, (matrix_for_batch_run h2 _ vm) by done.
  set (lv := fresh (dom h2)).
  pose proof (fresh_lookup h2) as Flv. fold lv in Flv.
  set (h3 := <[lv := MatrixObject (DesignMatrix.for_batch vm g t)]> h2).
  assert (h3 !! fb = Some (ProcessObject (with_batch_info (g, t) p))) as Hfb3.
  { unfold h3. rewrite lookup_insert_ne; [apply lookup_insert_eq|].
    intros Heq. rewrite Heq in Flv. unfold h2 in Flv. by rewrite lookup_insert_eq in Flv. }
  rewrite bind_run, (setattr_run h3 fb _ _ Hfb3).
  set (p4 := with_variance_multi_mat lv (with_batch_info (g, t) p)).
  set (h4 := <[fb := ProcessObject p4]> h3).
  assert (lv ≠ fb) as Nlvfb.
  { intros Heq. rewrite Heq in Flv. unfold h2 in Flv. by rewrite lookup_insert_eq in Flv. }
  assert (h !! lv = None) as Hlv.
  { unfold h2, h1 in Flv. by rewrite !lookup_insert_ne in Flv. }
  assert (lv ≠ measure_mat p) as Nlvm by (intros Heq; rewrite Heq, Hmm in Hlv; done).
  assert (lv ≠ transition_mat p) as Nlvt by (intros Heq; rewrite Heq, Htm in Hlv; done).
  assert (h4 !! measure_mat p = Some (MatrixObject mm)) as Hmm4.
  { unfold h4, h3, h2, h1. by rewrite !lookup_insert_ne. }
  rewrite bind_run, (matrix_for_batch_run h4 _ mm) by done.
  set (lm := fresh (dom h4)).
  pose proof (fresh_lookup h4) as Flm. fold lm in Flm.
  set (h5 := <[lm := MatrixObject (DesignMatrix.for_batch mm g t)]> h4).
  assert (lm ≠ fb) as Nlmfb.
  { intros Heq. rewrite Heq in Flm. unfold h4 in Flm. by rewrite lookup_insert_eq in Flm. }
  assert (lm ≠ lv) as Nlmlv.
  { intros Heq. rewrite Heq in Flm. unfold h4, h3 in Flm.
    by rewrite lookup_insert_ne, lookup_insert_eq in Flm. }
  assert (h !! lm = None) as Hlm.
  { unfold h4, h3, h2, h1 in Flm. by rewrite !lookup_insert_ne in Flm. }
  assert (lm ≠ transition_mat p) as Nlmt by (intros Heq; rewrite Heq, Htm in Hlm; done).
  rewrite bind_run, (setattr_run h5 fb p4).
  2: { unfold h5, h4. rewrite lookup_insert_ne by done. apply lookup_insert_eq. }
  set (p6 := with_measure_mat lm p4).
  set (h6 := <[fb := ProcessObject p6]> h5).
  assert (h6 !! transition_mat p = Some (MatrixObject tm)) as Htm6.
  { unfold h6, h5, h4, h3, h2, h1. by rewrite !lookup_insert_ne. }
  rewrite bind_run, (matrix_for_batch_run h6 _ tm) by done.
  set (lt := fresh (dom h6)).
  pose proof (fresh_lookup h6) as Flt. fold lt in Flt.
  set (h7 := <[lt := MatrixObject (DesignMatrix.for_batch tm g t)]> h6).
  assert (lt ≠ fb) as Nltfb.
  { intros Heq. rewrite Heq in Flt. unfold h6 in Flt. by rewrite lookup_insert_eq in Flt. }
  assert (lt ≠ lm) as Nltlm.
  { intros Heq. rewrite Heq in Flt. unfold h6, h5 in Flt.
    by rewrite lookup_insert_ne, lookup_insert_eq in Flt. }
  assert (lt ≠ lv) as Nltlv.
  { intros Heq. rewrite Heq in Flt. unfold h6, h5, h4, h3 in Flt.
    rewrite (lookup_insert_ne _ fb lv), (lookup_insert_ne _ lm lv),
      (lookup_insert_ne _ fb lv), lookup_insert_eq in Flt; done. }
  assert (h !! lt = None) as Hlt.
  { unfold h6, h5, h4, h3, h2, h1 in Flt. by rewrite !lookup_insert_ne in Flt. }
  rewrite bind_run, (setattr_run h7 fb p6).
  2: { unfold h7, h6. rewrite lookup_insert_ne by done. apply lookup_insert_eq. }
  exists fb, lv, lm, lt. repeat split; try done.
  - repeat (apply NoDup_cons_2;
              [rewrite ?elem_of_cons, ?elem_of_nil; intuition congruence|]).
    apply NoDup_nil_2.
  - unfold mret, st_ret. f_equal. apply map_eq. intros k.
    unfold h7, h6, h5, h4, h3, h2, h1.
    destruct (decide (k = fb)) as [->|Nk1]; [by rewrite !lookup_insert_eq|].
    rewrite (lookup_insert_ne _ fb k) by done.
    rewrite (lookup_insert_ne _ fb k) by done.
    destruct (decide (k = lt)) as [->|Nk2]; [by rewrite !lookup_insert_eq|].
    rewrite !(lookup_insert_ne _ lt k) by done.
    rewrite !(lookup_insert_ne _ fb k) by done.
    destruct (decide (k = lm)) as [->|Nk3]; [by rewrite !lookup_insert_eq|].
    rewrite !(lookup_insert_ne _ lm k) by done.
    rewrite !(lookup_insert_ne _ fb k) by done.
    destruct (decide (k = lv)) as [->|Nk4]; [by rewrite !lookup_insert_eq|].
    rewrite !(lookup_insert_ne _ lv k) by done.
    by rewrite !(lookup_insert_ne _ fb k) by done.
Qed.


Lemma get_matrix_not_matrix (h : heap) l :
  (∀ m, h !! l ≠ Some (MatrixObject m)) → get_matrix l h = (Raise (NoSuchObject l), h).
Proof.
  intros Hnot. unfold get_matrix. destruct (h !! l) as [[q|m]|] eqn:E; try done.
  by destruct (Hnot m).
Qed.

(** A call of [for_batch] that returns was made on a process whose three
    matrices are there, with a measure and a transition. *)
Lemma for_batch_Ok_inv (h h' : heap) self g t fb :
  for_batch self g t h = (Ok fb, h') →
  ∃ p tm mm vm,
    h !! self = Some (ProcessObject p) ∧
    h !! transition_mat p = Some (MatrixObject tm) ∧
    h !! measure_mat p = Some (MatrixObject mm) ∧
    h !! variance_multi_mat p = Some (MatrixObject vm) ∧
    DesignMatrix.measures mm ≠ [] ∧ DesignMatrix.empty tm = false.
Proof.
  unfold for_batch. rewrite bind_run.
  destruct (h !! self) as [[p|m0]|] eqn:Hp;
    [|unfold get_process; by rewrite Hp..].
  rewrite (get_process_run h self p Hp), bind_run.
  unfold measures at 1. rewrite bind_run, (get_process_run h self p Hp), bind_run.
  destruct (h !! measure_mat p) as [[q|mm]|] eqn:Hmm;
    [unfold get_matrix; by rewrite Hmm| |unfold get_matrix; by rewrite Hmm].
  rewrite (get_matrix_run h _ mm Hmm). unfold mret, st_ret.
  destruct (decide (DesignMatrix.measures mm = [])) as [Hnone|Hsome].
  { by rewrite bool_decide_eq_true_2. }
  rewrite bool_decide_eq_false_2 by done. rewrite bind_run.
  destruct (h !! transition_mat p) as [[q|tm]|] eqn:Htm;
    [unfold get_matrix; by rewrite Htm| |unfold get_matrix; by rewrite Htm].
  rewrite (get_matrix_run h _ tm Htm).
  destruct (DesignMatrix.empty tm) eqn:Hempty; [done|].
  intros E. exists p, tm, mm.
  destruct (h !! variance_multi_mat p) as [[q|vm]|] eqn:Hvm; [exfalso|by exists vm|exfalso].
  all: rewrite bind_run in E; unfold alloc at 1 in E;
    rewrite bind_run, (setattr_run _ _ p) in E by apply lookup_insert_eq;
    rewrite bind_run in E; unfold matrix_for_batch at 1 in E;
    rewrite bind_run in E.
  all: rewrite get_matrix_not_matrix in E; [done|].
  all: intros m; destruct (decide (variance_multi_mat p = fresh (dom h))) as [Heq|Hne];
    [rewrite Heq, lookup_insert_eq; done|rewrite !lookup_insert_ne by done; by rewrite Hvm].
Qed.

(** *** Registering measures and transitions *)

Lemma register_elem names row : row ∈ DesignMatrix.register names row.
Proof.
  unfold DesignMatrix.register. case_bool_decide; [done|].
  apply elem_of_app. right. by left.
Qed.

Lemma assign_Ok m row col v overwrite m' :
  DesignMatrix.assign m row col v overwrite = Ok m' →
  row ∈ DesignMatrix.dim1_names m' ∧ DesignMatrix.assignments m' ≠ ∅.
Proof.
  unfold DesignMatrix.assign. destruct (_ && _); [done|].
  intros [= <-]. simpl. split; [apply register_elem|apply insert_non_empty].
Qed.

Lemma set_ilink_Ok m row col link overwrite m' :
  DesignMatrix.set_ilink m row col link overwrite = Ok m' →
  DesignMatrix.dim1_names m' = DesignMatrix.dim1_names m ∧
  (DesignMatrix.assignments m ≠ ∅ → DesignMatrix.assignments m' ≠ ∅).
Proof.
  unfold DesignMatrix.set_ilink. intros [= <-]. simpl. split; [done|].
  intros Hne Hempty. apply Hne. apply map_empty. intros k.
  apply (f_equal (fun a => a !! k)) in Hempty. rewrite lookup_empty in Hempty.
  rewrite lookup_alter in Hempty. case_decide; [|done].
  subst k. by destruct (DesignMatrix.assignments m !! (row, col)).
Qed.

Lemma assign_keeps_rows m row col v overwrite m' :
  DesignMatrix.assign m row col v overwrite = Ok m' →
  DesignMatrix.dim1_names m ≠ [] → DesignMatrix.dim1_names m' ≠ [].
Proof.
  unfold DesignMatrix.assign. destruct (_ && _); [done|].
  intros [= <-]. simpl. unfold DesignMatrix.register.
  case_bool_decide; [done|]. intros _. by destruct (DesignMatrix.dim1_names m).
Qed.

(** A registration that returns wrote one matrix, the one it registers in. *)
Lemma set_measure_Ok_inv (h h1 : heap) self measure se v il force :
  _set_measure self measure se v il force h = (Ok (), h1) →
  ∃ p mm mm',
    h !! self = Some (ProcessObject p) ∧
    h !! measure_mat p = Some (MatrixObject mm) ∧
    h1 = <[measure_mat p := MatrixObject mm']> h ∧
    DesignMatrix.dim1_names mm' ≠ [] ∧ DesignMatrix.assignments mm' ≠ ∅.
Proof.
  unfold _set_measure. rewrite bind_run.
  destruct (h !! self) as [[p|m0]|] eqn:Hp; [|unfold get_process; by rewrite Hp..].
  rewrite (get_process_run h self p Hp), bind_run.
  destruct (h !! measure_mat p) as [[q|mm]|] eqn:Hmm;
    [unfold get_matrix; by rewrite Hmm| |unfold get_matrix; by rewrite Hmm].
  rewrite (get_matrix_run h _ mm Hmm), bind_run. unfold lift at 1.
  destruct (DesignMatrix.assign mm measure se v force) as [mm1|e] eqn:Ha; [|done].
  rewrite bind_run. unfold put at 1. rewrite bind_run. unfold lift at 1.
  destruct (DesignMatrix.set_ilink mm1 measure se il force) as [mm2|e] eqn:Hl; [|done].
  unfold put. intros [= <-]. exists p, mm, mm2.
  destruct (assign_Ok _ _ _ _ _ _ Ha) as [Hrow Hcells].
  destruct (set_ilink_Ok _ _ _ _ _ _ Hl) as [Hnames Hkeep].
  repeat split; try done.
  - by rewrite insert_insert_eq.
  - rewrite Hnames. intros Hnil. rewrite Hnil in Hrow. by apply elem_of_nil in Hrow.
  - by apply Hkeep.
Qed.

Lemma set_transition_Ok_inv (h h1 : heap) self from_element to_element v il force :
  _set_transition self from_element to_element v il force h = (Ok (), h1) →
  ∃ p tm tm',
    h !! self = Some (ProcessObject p) ∧
    h !! transition_mat p = Some (MatrixObject tm) ∧
    h1 = <[transition_mat p := MatrixObject tm']> h ∧
    DesignMatrix.assignments tm' ≠ ∅ ∧
    (DesignMatrix.dim1_names tm ≠ [] → DesignMatrix.dim1_names tm' ≠ []).
Proof.
  unfold _set_transition. rewrite bind_run.
  destruct (h !! self) as [[p|m0]|] eqn:Hp; [|unfold get_process; by rewrite Hp..].
  rewrite (get_process_run h self p Hp), bind_run.
  destruct (h !! transition_mat p) as [[q|tm]|] eqn:Htm;
    [unfold get_matrix; by rewrite Htm| |unfold get_matrix; by rewrite Htm].
  rewrite (get_matrix_run h _ tm Htm), bind_run. unfold lift at 1.
  destruct (DesignMatrix.assign tm to_element from_element v force) as [tm1|e] eqn:Ha; [|done].
  rewrite bind_run. unfold put at 1. rewrite bind_run. unfold lift at 1.
  destruct (DesignMatrix.set_ilink tm1 to_element from_element il force) as [tm2|e] eqn:Hl;
    [|done].
  unfold put. intros [= <-]. exists p, tm, tm2.
  destruct (assign_Ok _ _ _ _ _ _ Ha) as [Hrow Hcells].
  destruct (set_ilink_Ok _ _ _ _ _ _ Hl) as [Hnames Hkeep].
  repeat split; try done.
  - by rewrite insert_insert_eq.
  - by apply Hkeep.
  - rewrite Hnames. by apply (assign_keeps_rows _ _ _ _ _ _ Ha).
Qed.

Lemma empty_false m : DesignMatrix.assignments m ≠ ∅ → DesignMatrix.empty m = false.
Proof. intros Hne. unfold DesignMatrix.empty. by rewrite bool_decide_eq_false_2. Qed.

(** After a measure is registered and a transition assigned, the process
    has what [for_batch] asks for. *)
Lemma registered_ready (h h1 h2 : heap) self p vm
    measure se v il force from_element to_element v' il' force' :
  h !! self = Some (ProcessObject p) →
  h !! variance_multi_mat p = Some (MatrixObject vm) →
  _set_measure self measure se v il force h = (Ok (), h1) →
  _set_transition self from_element to_element v' il' force' h1 = (Ok (), h2) →
  ∃ tm2 mm2 vm2,
    h2 !! self = Some (ProcessObject p) ∧
    h2 !! transition_mat p = Some (MatrixObject tm2) ∧
    h2 !! measure_mat p = Some (MatrixObject mm2) ∧
    h2 !! variance_multi_mat p = Some (MatrixObject vm2) ∧
    DesignMatrix.measures mm2 ≠ [] ∧ DesignMatrix.empty tm2 = false.
Proof.
  intros Hp Hvm Hm Ht.
  apply set_measure_Ok_inv in Hm as (p' & mm & mm' & Hp' & Hmm & -> & Hrows & _).
  rewrite Hp in Hp'. injection Hp' as <-.
  assert (measure_mat p ≠ self) as Nms by (intros Heq; rewrite Heq, Hp in Hmm; done).
  apply set_transition_Ok_inv in Ht as (p' & tm & tm' & Hp' & Htm & -> & Hcells & Hkeep).
  rewrite lookup_insert_ne, Hp in Hp' by done. injection Hp' as <-.
  assert (transition_mat p ≠ self) as Nts.
  { intros Heq. rewrite Heq, lookup_insert_ne, Hp in Htm; done. }
  destruct (decide (measure_mat p = transition_mat p)) as [Emt|Nmt].
  - rewrite <- Emt, lookup_insert_eq in Htm. injection Htm as <-.
    destruct (decide (variance_multi_mat p = measure_mat p)) as [Evm|Nvm].
    + exists tm', tm', tm'. rewrite <- !Emt, !Evm.
      rewrite lookup_insert_ne by done. rewrite !lookup_insert_eq, lookup_insert_ne, Hp by done.
      repeat split; try done; [by apply Hkeep|by apply empty_false].
    + exists tm', tm', vm. rewrite <- !Emt.
      rewrite (lookup_insert_ne _ _ self) by done.
      rewrite (lookup_insert_ne _ _ self), Hp by done.
      rewrite !lookup_insert_eq. rewrite !(lookup_insert_ne _ _ (variance_multi_mat p)) by done.
      repeat split; try done; [by apply Hkeep|by apply empty_false].
  - rewrite lookup_insert_ne in Htm by done.
    rewrite (lookup_insert_ne _ _ self) by done.
    rewrite (lookup_insert_ne _ _ self), Hp by done.
    rewrite lookup_insert_eq.
    rewrite (lookup_insert_ne _ _ (measure_mat p)) by done. rewrite lookup_insert_eq.
    destruct (decide (variance_multi_mat p = transition_mat p)) as [Evt|Nvt].
    + exists tm', mm', tm'. rewrite Evt, lookup_insert_eq.
      repeat split; try done. by apply empty_false.
    + rewrite (lookup_insert_ne _ _ (variance_multi_mat p)) by done.
      destruct (decide (variance_multi_mat p = measure_mat p)) as [Evm|Nvm].
      * exists tm', mm', mm'. rewrite Evm, lookup_insert_eq.
        repeat split; try done. by apply empty_false.
      * exists tm', mm', vm. rewrite lookup_insert_ne, Hvm by done.
        repeat split; try done. by apply empty_false.
Qed.

(** C5. On a process without a registered measure, or with an empty
    transition matrix, [for_batch] raises a structural error (a
    [TypeError]: no measures, else no transitions) and leaves the heap as
    it is; once a measure is registered and a transition assigned, the
    same call returns a process specialized for the batch: a new object,
    at an address that was free, of the class, the identifier and the state
    elements of the original, with the batch shape recorded and, for each
    of the three matrices, a new object that is the matrix of the original
    materialized for the batch shape; the original is as it was. *)
Theorem for_batch_needs_measures_and_transitions (h : heap) self g t p tm mm vm :
  h !! self = Some (ProcessObject p) →
  h !! transition_mat p = Some (MatrixObject tm) →
  h !! measure_mat p = Some (MatrixObject mm) →
  h !! variance_multi_mat p = Some (MatrixObject vm) →
  (DesignMatrix.measures mm = [] ∨ DesignMatrix.empty tm = true →
   ∃ e, for_batch self g t h = (Raise e, h) ∧
        structural e = true ∧ class_of e = TypeError ∧
        (DesignMatrix.measures mm = [] → e = NoMeasures (id p)) ∧
        (DesignMatrix.measures mm ≠ [] → e = NoTransitions (id p))) ∧
  (∀ measure se v il force from_element to_element v' il' force' h1 h2,
     _set_measure self measure se v il force h = (Ok (), h1) →
     _set_transition self from_element to_element v' il' force' h1 = (Ok (), h2) →
     ∃ fb h3 q,
       for_batch self g t h2 = (Ok fb, h3) ∧
       fb ≠ self ∧ h2 !! fb = None ∧
       h3 !! fb = Some (ProcessObject q) ∧
       cls q = cls p ∧ id q = id p ∧ state_elements q = state_elements p ∧
       batch_info q = Some (g, t) ∧
       materialized h2 h3 (transition_mat p) (transition_mat q) g t ∧
       materialized h2 h3 (measure_mat p) (measure_mat q) g t ∧
       materialized h2 h3 (variance_multi_mat p) (variance_multi_mat q) g t ∧
       h2 !! transition_mat q = None ∧ h2 !! measure_mat q = None ∧
       h2 !! variance_multi_mat q = None ∧
       h3 !! self = Some (ProcessObject p)).
Proof.
  intros Hp Htm Hmm Hvm. split.
  - intros Hmissing.
    destruct (decide (DesignMatrix.measures mm = [])) as [Hnone|Hsome].
    + exists (NoMeasures (id p)). repeat split; try done.
      by apply (for_batch_no_measures h self g t p mm).
    + destruct Hmissing as [?|Hempty]; [done|].
      exists (NoTransitions (id p)). repeat split; try done.
      by apply (for_batch_no_transitions h self g t p mm tm).
  - intros measure se v il force from_element to_element v' il' force' h1 h2 Hm Ht.
    destruct (registered_ready h h1 h2 self p vm _ _ _ _ _ _ _ _ _ _ Hp Hvm Hm Ht)
      as (tm2 & mm2 & vm2 & Hp2 & Htm2 & Hmm2 & Hvm2 & Hsome & Hfull).
    destruct (for_batch_run h2 self g t p tm2 mm2 vm2 Hp2 Htm2 Hmm2 Hvm2 Hsome Hfull)
      as (fb & lv & lm & lt & Ffb & Flv & Flm & Flt & Hnd & ->).
    apply NoDup_cons in Hnd as [Nfb Hnd]. apply NoDup_cons in Hnd as [Nlv Hnd].
    apply NoDup_cons in Hnd as [Nlm _].
    rewrite !elem_of_cons, elem_of_nil in Nfb. rewrite !elem_of_cons, elem_of_nil in Nlv.
    rewrite !elem_of_cons, elem_of_nil in Nlm.
    eexists fb, _, _. split; [done|]. rewrite lookup_insert_eq. simpl.
    repeat split; try done.
    + intros Heq. subst fb. congruence.
    + exists tm2. split; [done|]. rewrite lookup_insert_ne by intuition congruence.
      by rewrite lookup_insert_eq.
    + exists mm2. split; [done|]. rewrite !(lookup_insert_ne _ _ lm) by intuition congruence.
      by rewrite lookup_insert_eq.
    + exists vm2. split; [done|]. rewrite !(lookup_insert_ne _ _ lv) by intuition congruence.
      by rewrite lookup_insert_eq.
    + rewrite !lookup_insert_ne; [done|..]; intros Heq; subst self; congruence.
Qed.

(** C6. A call of [for_batch] that returns gives a new object, at an
    address that was free, with the class, the identifier and the state
    elements of the original and the batch shape recorded; its three
    matrices are new objects too, each the matrix of the original
    materialized for the batch shape; and every object that was in the
    heap before the call, the original process and its three matrices
    among them, is as it was. *)
Theorem for_batch_copies (h h' : heap) self g t fb :
  for_batch self g t h = (Ok fb, h') →
  ∃ p q,
    h !! self = Some (ProcessObject p) ∧
    fb ≠ self ∧ h !! fb = None ∧ h' !! fb = Some (ProcessObject q) ∧
    cls q = cls p ∧ id q = id p ∧ state_elements q = state_elements p ∧
    batch_info q = Some (g, t) ∧
    materialized h h' (transition_mat p) (transition_mat q) g t ∧
    materialized h h' (measure_mat p) (measure_mat q) g t ∧
    materialized h h' (variance_multi_mat p) (variance_multi_mat q) g t ∧
    h !! transition_mat q = None ∧ h !! measure_mat q = None ∧
    h !! variance_multi_mat q = None ∧
    h' !! self = Some (ProcessObject p) ∧
    h' !! transition_mat p = h !! transition_mat p ∧
    h' !! measure_mat p = h !! measure_mat p ∧
    h' !! variance_multi_mat p = h !! variance_multi_mat p ∧
    ∀ l, is_Some (h !! l) → h' !! l = h !! l.
Proof.
  intros E.
  destruct (for_batch_Ok_inv h h' self g t fb E)
    as (p & tm & mm & vm & Hp & Htm & Hmm & Hvm & Hsome & Hfull).
  destruct (for_batch_run h self g t p tm mm vm Hp Htm Hmm Hvm Hsome Hfull)
    as (fb' & lv & lm & lt & Ffb & Flv & Flm & Flt & Hnd & E').
  rewrite E in E'. injection E' as -> ->.
  apply NoDup_cons in Hnd as [Nfb Hnd]. apply NoDup_cons in Hnd as [Nlv Hnd].
  apply NoDup_cons in Hnd as [Nlm _].
  rewrite !elem_of_cons, elem_of_nil in Nfb. rewrite !elem_of_cons, elem_of_nil in Nlv.
  rewrite !elem_of_cons, elem_of_nil in Nlm.
  assert (∀ l, is_Some (h !! l) →
            <[fb' := ProcessObject
                {| cls := cls p; id := id p; state_elements := state_elements p;
                   transition_mat := lt; measure_mat := lm; variance_multi_mat := lv;
                   batch_info := Some (g, t) |}]>
              (<[lt := MatrixObject (DesignMatrix.for_batch tm g t)]>
                 (<[lm := MatrixObject (DesignMatrix.for_batch mm g t)]>
                    (<[lv := MatrixObject (DesignMatrix.for_batch vm g t)]> h))) !! l
            = h !! l) as Hframe.
  { intros l [o Ho]. rewrite !lookup_insert_ne; [done|..]; intros Heq; subst l; congruence. }
  eexists p, _. rewrite lookup_insert_eq. simpl.
  repeat split; try done.
  - intros Heq. subst fb'. congruence.
  - exists tm. split; [done|]. rewrite lookup_insert_ne by intuition congruence.
    by rewrite lookup_insert_eq.
  - exists mm. split; [done|]. rewrite !(lookup_insert_ne _ _ lm) by intuition congruence.
    by rewrite lookup_insert_eq.
  - exists vm. split; [done|]. rewrite !(lookup_insert_ne _ _ lv) by intuition congruence.
    by rewrite lookup_insert_eq.
  - rewrite Hframe by done. done.
  - by apply Hframe.
  - by apply Hframe.
  - by apply Hframe.
Qed.

(** *** The check at class definition *)

Lemma kwargs_not_excluded : "kwargs" ∉ excluded.
Proof.
  unfold excluded. rewrite !elem_of_union, !elem_of_singleton. intuition discriminate.
Qed.

(** A catch-all [**kwargs] shows among the keywords under its name. *)
Lemma catch_all_is_keyword (m : method) :
  var_keyword "kwargs" ∈ parameters m → "kwargs" ∈ keywords m.
Proof.
  intros Hin. unfold keywords, batch_kwargs.
  apply elem_of_list_to_set, list_elem_of_filter. split; [apply kwargs_not_excluded|].
  apply list_elem_of_fmap. by exists (var_keyword "kwargs").
Qed.

(** Explicit keyword arguments have none named [kwargs] among them. *)
Lemma explicit_no_kwargs (m : method) : explicit m → "kwargs" ∉ keywords m.
Proof.
  unfold explicit, keywords, batch_kwargs. intros Hex Hin.
  apply elem_of_list_to_set, list_elem_of_filter in Hin as [_ Hin].
  apply list_elem_of_fmap in Hin as (x & Hname & Hx).
  rewrite Forall_forall in Hex. destruct (Hex x Hx) as [_ Hne]. by apply Hne.
Qed.

(** C9, amended. A subclass that overrides [batch_kwargs] is defined
    without any check of its signatures. A subclass that does not, and
    overrides both [for_batch] and [initial_state_means_for_batch], fails
    at definition with a structural error (a [TypeError]) if the keyword
    sets of the two overrides differ or if either override declares a
    catch-all [**kwargs]; it is defined without error if each override
    declares its keyword arguments explicitly, with no catch-all and no
    parameter named [kwargs] among them, and the two sets are the same. *)
Theorem init_subclass_checks_signatures (c : class) :
  (overrides (cls_batch_kwargs c) (cls_batch_kwargs Process) →
   __init_subclass__ c = Ok ()) ∧
  (¬ overrides (cls_batch_kwargs c) (cls_batch_kwargs Process) →
   overrides (cls_for_batch c) (cls_for_batch Process) →
   overrides (cls_initial_state_means_for_batch c)
     (cls_initial_state_means_for_batch Process) →
   (keywords (cls_for_batch c) ≠ keywords (cls_initial_state_means_for_batch c)
    ∨ var_keyword "kwargs" ∈ parameters (cls_for_batch c)
    ∨ var_keyword "kwargs" ∈ parameters (cls_initial_state_means_for_batch c) →
    ∃ e, __init_subclass__ c = Raise e ∧ structural e = true ∧ class_of e = TypeError) ∧
   (explicit (cls_for_batch c) →
    explicit (cls_initial_state_means_for_batch c) →
    keywords (cls_for_batch c) = keywords (cls_initial_state_means_for_batch c) →
    __init_subclass__ c = Ok ())).
Proof.
  split.
  - unfold overrides, __init_subclass__, code_differs.
    intros Hov. by rewrite bool_decide_eq_true_2.
  - intros Hbk Hfb Him. split.
    + intros Hbad.
      assert ("kwargs" ∈ keywords (cls_for_batch c)
              ∨ "kwargs" ∈ keywords (cls_initial_state_means_for_batch c)
              ∨ keywords (cls_for_batch c) ≠ keywords (cls_initial_state_means_for_batch c))
        as Hcases.
      { destruct Hbad as [Hne|[Hc|Hc]]; auto using catch_all_is_keyword. }
      revert Hcases. unfold overrides, __init_subclass__, code_differs in *.
      fold (keywords (cls_for_batch c)). fold (keywords (cls_initial_state_means_for_batch c)).
      rewrite (bool_decide_eq_false_2 _ Hbk). simpl.
      rewrite (bool_decide_eq_true_2 _ Hfb), (bool_decide_eq_true_2 _ Him). simpl.
      intros [Hk|[Hk|Hne]].
      * rewrite (bool_decide_eq_true_2 _ Hk). by eexists.
      * rewrite (bool_decide_eq_true_2 _ Hk). case_bool_decide; by eexists.
      * rewrite (bool_decide_eq_true_2 _ Hne). repeat case_bool_decide; by eexists.
    + intros Hnb Hni Heq.
      apply explicit_no_kwargs in Hnb, Hni.
      unfold overrides, __init_subclass__, code_differs in *.
      fold (keywords (cls_for_batch c)). fold (keywords (cls_initial_state_means_for_batch c)).
      rewrite (bool_decide_eq_false_2 _ Hbk). simpl.
      rewrite (bool_decide_eq_true_2 _ Hfb), (bool_decide_eq_true_2 _ Him). simpl.
      by rewrite (bool_decide_eq_false_2 _ Hnb), (bool_decide_eq_false_2 _ Hni),
        bool_decide_eq_false_2 by (intros Hne; by apply Hne).
Qed.

(** C9 as stated fails, in both directions. [Unchecked] overrides both
    methods, its keyword sets differ and one override takes [**kwargs],
    and the class is defined without error, because it overrides
    [batch_kwargs] too; the same two signatures in [Loose], which does
    not, are refused. [Named] overrides both methods with signatures that
    match and have no catch-all, and is refused, because the one keyword
    they take is named [kwargs]; [Season], with another name for it, is
    defined. *)
Lemma unchecked_subclass_is_defined :
  code_differs (cls_for_batch Unchecked) (cls_for_batch Process) = true ∧
  code_differs (cls_initial_state_means_for_batch Unchecked)
    (cls_initial_state_means_for_batch Process) = true ∧
  keywords (cls_for_batch Unchecked)
  ≠ keywords (cls_initial_state_means_for_batch Unchecked) ∧
  var_keyword "kwargs" ∈ parameters (cls_initial_state_means_for_batch Unchecked) ∧
  __init_subclass__ Unchecked = Ok () ∧
  __init_subclass__ Loose = Raise (InitMeanKwargsNotExplicit "Loose") ∧
  code_differs (cls_for_batch Named) (cls_for_batch Process) = true ∧
  code_differs (cls_initial_state_means_for_batch Named)
    (cls_initial_state_means_for_batch Process) = true ∧
  batch_kwargs (cls_for_batch Named) = ["kwargs"] ∧
  batch_kwargs (cls_initial_state_means_for_batch Named) = ["kwargs"] ∧
  Forall (fun x => param_kind x = POSITIONAL_OR_KEYWORD)
    (parameters (cls_for_batch Named)
     ++ parameters (cls_initial_state_means_for_batch Named)) ∧
  __init_subclass__ Named = Raise (ForBatchKwargsNotExplicit "Named") ∧
  __init_subclass__ Season = Ok ().
Proof.
  split; [by vm_compute|]. split; [by vm_compute|]. split.
  { intros Heq. assert ("kwargs" ∈ keywords (cls_for_batch Unchecked)) as Hin.
    { rewrite Heq. apply catch_all_is_keyword. simpl. set_solver. }
    unfold keywords, batch_kwargs in Hin. apply elem_of_list_to_set in Hin.
    apply list_elem_of_filter in Hin as [_ Hin]. simpl in Hin.
    rewrite !elem_of_cons, elem_of_nil in Hin. intuition discriminate. }
  split; [simpl; set_solver|].
  split; [by vm_compute|]. split; [by vm_compute|].
  split; [by vm_compute|]. split; [by vm_compute|].
  split; [by vm_compute|]. split; [by vm_compute|].
  split; [simpl; repeat constructor|].
  split; by vm_compute.
Qed.

(** *** The methods run on [trend] *)

Example init_duplicate :
  (__init__ Process "trend" ["position"; "position"] ∅).1 = Raise DuplicateStateElements.
Proof. by vm_compute. Qed.

Example init_fixed_also_dynamic :
  (__init__ (subclass Process
               {| body_name := "Fixed"; def_for_batch := None;
                  def_initial_state_means_for_batch := None; def_batch_kwargs := None;
                  def_dynamic_state_elements := None;
                  def_fixed_state_elements := Some (fun _ => ["position"]) |})
     "trend" ["position"; "velocity"] ∅).1
  = Raise FixedAlsoDynamic.
Proof. by vm_compute. Qed.

Example init_trend :
  (__init__ Process "trend" ["position"; "velocity"] ∅).1 = Ok trend ∧
  constructed !! trend = Some (ProcessObject trend_attributes).
Proof. split; by vm_compute. Qed.

Lemma constructed_trend :
  constructed !! trend = Some (ProcessObject trend_attributes).
Proof. vm_compute. reflexivity. Qed.

Lemma constructed_transition_mat :
  constructed !! transition_mat trend_attributes
  = Some (MatrixObject (DesignMatrix.new ["position"; "velocity"] ["position"; "velocity"])).
Proof. vm_compute. reflexivity. Qed.

Lemma constructed_measure_mat :
  constructed !! measure_mat trend_attributes
  = Some (MatrixObject (DesignMatrix.new [] ["position"; "velocity"])).
Proof. vm_compute. reflexivity. Qed.

Lemma constructed_variance_multi_mat :
  constructed !! variance_multi_mat trend_attributes
  = Some (MatrixObject (DesignMatrix.new ["position"; "velocity"] ["position"; "velocity"])).
Proof. vm_compute. reflexivity. Qed.

Lemma measured_run :
  _set_measure trend "y" "position" (DesignMatrix.Constant 1) None false constructed
  = (Ok (), measured).
Proof. vm_compute. reflexivity. Qed.

Lemma complete_run :
  _set_transition trend "position" "position" (DesignMatrix.Constant 1) None false measured
  = (Ok (), complete).
Proof. vm_compute. reflexivity. Qed.

Lemma specialized_run :
  for_batch trend 3 5 complete = (Ok trend_for_batch, specialized).
Proof. vm_compute. reflexivity. Qed.

(** C5 on [trend]: refused as constructed, specialized once complete. *)
Lemma for_batch_needs_measures_and_transitions_witness :
  (∃ e, for_batch trend 3 5 constructed = (Raise e, constructed) ∧ structural e = true) ∧
  (∃ fb h3 q, for_batch trend 3 5 complete = (Ok fb, h3) ∧
              fb ≠ trend ∧
              h3 !! fb = Some (ProcessObject q) ∧ batch_info q = Some (3, 5) ∧
              materialized complete h3
                (transition_mat trend_attributes) (transition_mat q) 3 5 ∧
              h3 !! trend = Some (ProcessObject trend_attributes)).
Proof.
  pose proof (for_batch_needs_measures_and_transitions constructed trend 3 5
                trend_attributes _ _ _
                constructed_trend constructed_transition_mat constructed_measure_mat
                constructed_variance_multi_mat) as [Hraise Hok].
  split.
  - destruct (Hraise (or_introl eq_refl)) as (e & E & Hs & _).
    exists e. split; [exact E|exact Hs].
  - destruct (Hok _ _ _ _ _ _ _ _ _ _ _ _ measured_run complete_run)
      as (fb & h3 & q & E & Hne & _ & Hq & _ & _ & _ & Hb & Hmat & _ & _ & _ & _ & _ & Hself).
    exists fb, h3, q. split; [exact E|]. split; [exact Hne|]. split; [exact Hq|].
    split; [exact Hb|]. split; [exact Hmat|exact Hself].
Defined.

(** C6 on [trend]: the copy is at a new address and [trend] is as it was. *)
Lemma for_batch_copies_witness :
  ∃ p q,
    complete !! trend = Some (ProcessObject p) ∧
    specialized !! trend_for_batch = Some (ProcessObject q) ∧
    id q = id p ∧ batch_info q = Some (3, 5) ∧
    specialized !! trend = Some (ProcessObject p).
Proof.
  destruct (for_batch_copies complete specialized trend 3 5 trend_for_batch specialized_run)
    as (p & q & Hp & _ & _ & Hq & _ & Hid & _ & Hb & _ & _ & _ & _ & _ & _ & Hp' & _).
  exists p, q. split; [exact Hp|]. split; [exact Hq|].
  split; [exact Hid|]. split; [exact Hb|exact Hp'].
Defined.

End ProcessFacts.

(** ** More on the filter *)

Section FilterMore.
Context {val M B : Type} `{!TruthValue val} `{!StateBelief val M B}.

Implicit Types (d : DesignForBatch.t M) (input : Tensor val) (b sp : B).

(** The keyword arguments after the seed is chosen are those before it,
    but for [start_datetimes]. *)
Lemma seed_plain_progress (states : StateBeliefOverTime.t val M B) from kw seed_b kw' n :
  KalmanFilter.seed states from kw = Ok (seed_b, kw') →
  plain_progress kw n → plain_progress kw' n.
Proof.
  unfold KalmanFilter.seed. destruct from as [dts|]; intros E Hp.
  - apply bind_Ok in E as (b & _ & [= _ <-]). by apply plain_progress_insert.
  - apply bind_Ok in E as (b & _ & [= _ <-]). done.
Qed.


(** [forecast], read off its result, for either way of choosing the seed. *)
Lemma forecast_Ok_inv (self : KalmanFilter.t val M) states h from kw out :
  plain_progress kw (Z.to_nat h) →
  KalmanFilter.forecast self states h from kw = Ok out →
  (0 < h)%Z ∧
  ∃ seed_b kw' d,
    KalmanFilter.seed states from kw = Ok (seed_b, kw') ∧
    Design.for_batch (KalmanFilter.design self) (batch_size seed_b) (Z.to_nat h) kw' = inr d ∧
    length (StateBeliefOverTime.state_beliefs out) = Z.to_nat h ∧
    ∀ t, t < Z.to_nat h → ∃ carried b,
      carried_into seed_b (StateBeliefOverTime.state_beliefs out) t = Some carried ∧
      StateBeliefOverTime.state_beliefs out !! t = Some b ∧
      forecast_at d t carried b.
Proof.
  intros Hp. unfold KalmanFilter.forecast. destruct (0 <? h)%Z eqn:Hh; simpl; [|done].
  apply Z.ltb_lt in Hh. intros E. split; [done|].
  apply bind_Ok in E as ([seed_b kw'] & Es & E).
  destruct (Design.for_batch _ _ _ _) as [message|d] eqn:Hd; simpl in E; [done|].
  destruct (plain_progress_iterate kw' (Z.to_nat h)) as (prog & Ep & Ei).
  { by eapply seed_plain_progress. }
  rewrite Ep in E. simpl in E. rewrite Ei in E. simpl in E.
  apply bind_Ok in E as (l & El & [= <-]). simpl.
  exists seed_b, kw', d.
  apply forecast_loop_Ok in El as (new & -> & Hlen & Hnew). simpl.
  by repeat split.
Qed.

(** X4. Whenever [forecast] returns, for a seed chosen either way and with
    a [progress] that is missing, [None], a boolean, or a callable that
    yields the steps of the range of the horizon as they come, it
    returns as many beliefs as the horizon; the first is the seed with the
    measurement computed from [H[0]], [R[0]], and every later one is made
    of the one before by [predict] with [F[t-1]], [Q[t-1]] and
    [compute_measurement] with [H[t]], [R[t]], the matrices being those of
    the batch design built for the batch size of the seed and the
    horizon. *)
Theorem forecast_recursion (self : KalmanFilter.t val M) states h from kw out :
  plain_progress kw (Z.to_nat h) →
  KalmanFilter.forecast self states h from kw = Ok out →
  ∃ seed_b kw' d,
    KalmanFilter.seed states from kw = Ok (seed_b, kw') ∧
    Design.for_batch (KalmanFilter.design self) (batch_size seed_b) (Z.to_nat h) kw' = inr d ∧
    Z.of_nat (length (StateBeliefOverTime.state_beliefs out)) = h ∧
    ∀ t, t < Z.to_nat h → ∃ b Hm Rm,
      StateBeliefOverTime.state_beliefs out !! t = Some b ∧
      DesignForBatch.H d !! t = Some Hm ∧ DesignForBatch.R d !! t = Some Rm ∧
      match t with
      | 0 => b = compute_measurement seed_b Hm Rm
      | S t' => ∃ prev Fm Qm,
          StateBeliefOverTime.state_beliefs out !! t' = Some prev ∧
          DesignForBatch.F d !! t' = Some Fm ∧ DesignForBatch.Q d !! t' = Some Qm ∧
          b = compute_measurement (predict prev Fm Qm) Hm Rm
      end.
Proof.
  intros Hp E. destruct (forecast_Ok_inv self states h from kw out Hp E)
    as (Hh & seed_b & kw' & d & Es & Hd & Hlen & Hrec).
  exists seed_b, kw', d. repeat split; try done; [lia|].
  intros t Ht. destruct (Hrec t Ht) as (carried & b & Hcar & Hb & Hm & Rm & EH & ER & Hstep).
  exists b, Hm, Rm. repeat split; try done.
  destruct t as [|t']; simpl in Hcar.
  - by injection Hcar as <-.
  - destruct Hstep as (Fm & Qm & EF & EQ & ->). by exists carried, Fm, Qm.
Qed.


End FilterMore.

Module Gaussian1RunsFacts.
Import Gaussian1 Gaussian1Runs.

Lemma filtered_dated_returned :
  KalmanFilter.forward doubling_filter two_groups None dated = Ok filtered_dated.
Proof. vm_compute. reflexivity. Qed.

Lemma forecasted_from_returned :
  KalmanFilter.forecast doubling_filter filtered_dated 3 (Some [12; 23]%Z) dated
  = Ok forecasted_from.
Proof. vm_compute. reflexivity. Qed.

(** Why the statements on the loops restrict [progress]: under a wrapper
    that stops early [forward] returns four beliefs for five timesteps, and
    with a tensor of several elements for [progress] it raises what the
    question of its truth raises, once the batch design is built. *)
Example forward_under_a_wrapper_that_stops_early :
  KalmanFilter.forward doubling_filter two_groups None stops_early = Ok filtered_early ∧
  length (StateBeliefOverTime.state_beliefs filtered_early) = 4.
Proof. split; vm_compute; reflexivity. Qed.

Example forward_under_a_tensor_for_progress :
  KalmanFilter.forward doubling_filter two_groups None tensor_for_progress
  = Raise (External "the truth value of several elements, or of none, is ambiguous").
Proof. vm_compute. reflexivity. Qed.

(** X4 on a forecast of three steps from given datetimes. *)
Lemma forecast_recursion_witness :
  ∃ seed_b kw' d,
    KalmanFilter.seed filtered_dated (Some [12; 23]%Z) dated = Ok (seed_b, kw') ∧
    Design.for_batch (KalmanFilter.design doubling_filter) (batch_size seed_b) 3 kw' = inr d ∧
    Z.of_nat (length (StateBeliefOverTime.state_beliefs forecasted_from)) = 3%Z.
Proof.
  destruct (forecast_recursion doubling_filter filtered_dated 3 (Some [12; 23]%Z) dated
              forecasted_from I forecasted_from_returned)
    as (seed_b & kw' & d & Es & Hd & Hlen & _).
  exists seed_b, kw', d. split; [exact Es|]. split; [exact Hd|exact Hlen].
Defined.


End Gaussian1RunsFacts.

(** ** More on the process base class *)

Module ProcessMore.
Import Process ProcessFacts.

(** *** The constructor *)

(** The run of the constructor: four new objects, then the check. *)
Lemma init_run (c : class) (i : string) (se : list string) (h : heap) :
  let l1 := fresh (dom h) in
  let h1 := <[l1 := MatrixObject (DesignMatrix.new se se)]> h in
  let l2 := fresh (dom h1) in
  let h2 := <[l2 := MatrixObject (DesignMatrix.new [] se)]> h1 in
  let l3 := fresh (dom h2) in
  let h3 := <[l3 := MatrixObject (DesignMatrix.new se (dynamic_state_elements c se))]> h2 in
  let self := fresh (dom h3) in
  let p := {| cls := c; id := i; state_elements := se; transition_mat := l1;
              measure_mat := l2; variance_multi_mat := l3; batch_info := None |} in
  __init__ c i se h =
    (if negb (length se =? size (list_to_set se : gset string)) then
       Raise DuplicateStateElements
     else if negb (isdisjoint (list_to_set (dynamic_state_elements c se))
                     (fixed_state_elements c se)) then
       Raise FixedAlsoDynamic
     else Ok self, <[self := ProcessObject p]> h3).
Proof.
  intros l1 h1 l2 h2 l3 h3 self p.
  unfold __init__, mbind, st_bind, alloc. simpl.
  fold l1. fold h1. fold l2. fold h2. fold l3. fold h3. fold self. fold p.
  rewrite (validate_run _ self p) by apply lookup_insert_eq. simpl.
  destruct (negb _); [done|]. by destruct (negb _).
Qed.

(** X7. A constructor that returns has made four new objects, at
    addresses that were free and differ from each other: the process,
    with the class, the identifier and the state elements it was given and
    no batch shape, and its three matrices, without any cell: the
    transition matrix over the state elements, the measure matrix without
    any measure, the variance matrix over the dynamic state elements.
    Every object that was there before is as it was. *)
Theorem init_allocates (c : class) (i : string) (se : list string) (h h' : heap) self :
  __init__ c i se h = (Ok self, h') →
  ∃ p,
    h' !! self = Some (ProcessObject p) ∧
    cls p = c ∧ id p = i ∧ state_elements p = se ∧ batch_info p = None ∧
    NoDup [transition_mat p; measure_mat p; variance_multi_mat p; self] ∧
    h !! transition_mat p = None ∧ h !! measure_mat p = None ∧
    h !! variance_multi_mat p = None ∧ h !! self = None ∧
    h' !! transition_mat p = Some (MatrixObject (DesignMatrix.new se se)) ∧
    h' !! measure_mat p = Some (MatrixObject (DesignMatrix.new [] se)) ∧
    h' !! variance_multi_mat p
    = Some (MatrixObject (DesignMatrix.new se (dynamic_state_elements c se))) ∧
    ∀ l, is_Some (h !! l) → h' !! l = h !! l.
Proof.
  rewrite init_run.
  set (l1 := fresh (dom h)).
  set (h1 := <[l1 := MatrixObject (DesignMatrix.new se se)]> h).
  set (l2 := fresh (dom h1)).
  set (h2 := <[l2 := MatrixObject (DesignMatrix.new [] se)]> h1).
  set (l3 := fresh (dom h2)).
  set (h3 := <[l3 := MatrixObject (DesignMatrix.new se (dynamic_state_elements c se))]> h2).
  set (l4 := fresh (dom h3)).
  destruct (negb _); [done|]. destruct (negb _); [done|].
  intros [= <- <-].
  pose proof (fresh_lookup h) as F1. fold l1 in F1.
  pose proof (fresh_lookup h1) as F2. fold l2 in F2.
  pose proof (fresh_lookup h2) as F3. fold l3 in F3.
  pose proof (fresh_lookup h3) as F4. fold l4 in F4.
  unfold h1 in F2. apply lookup_insert_None in F2 as [F2 N21].
  unfold h2, h1 in F3. apply lookup_insert_None in F3 as [F3 N32].
  apply lookup_insert_None in F3 as [F3 N31].
  unfold h3, h2, h1 in F4. apply lookup_insert_None in F4 as [F4 N43].
  apply lookup_insert_None in F4 as [F4 N42]. apply lookup_insert_None in F4 as [F4 N41].
  eexists. rewrite lookup_insert_eq. split; [done|]. simpl.
  repeat split; try done.
  - repeat (apply NoDup_cons_2;
              [rewrite ?elem_of_cons, ?elem_of_nil; intuition congruence|]).
    apply NoDup_nil_2.
  - unfold h3, h2, h1. rewrite !lookup_insert_ne by done. apply lookup_insert_eq.
  - unfold h3, h2. rewrite !lookup_insert_ne by done. apply lookup_insert_eq.
  - unfold h3. rewrite lookup_insert_ne by done. apply lookup_insert_eq.
  - intros l [o Ho]. unfold h3, h2, h1.
    rewrite !lookup_insert_ne; [done|..]; intros Heq; subst l; congruence.
Qed.

(** X8. For a class without fixed state elements, as [Process] itself
    is by default, the constructor returns exactly when no name occurs
    twice among the state elements. *)
Theorem init_without_fixed (c : class) (i : string) (se : list string) (h : heap) :
  fixed_state_elements c se = [] →
  (∃ self h', __init__ c i se h = (Ok self, h')) ↔ NoDup se.
Proof.
  intros Hfixed. rewrite init_run, Hfixed. simpl. split.
  - intros (self & h' & E).
    destruct (length se =? _) eqn:El; simpl in E; [|done].
    by apply Nat.eqb_eq, length_eq_size_NoDup in El.
  - intros Hnd. apply length_eq_size_NoDup, Nat.eqb_eq in Hnd. rewrite Hnd. simpl.
    by eexists _, _.
Qed.

(** X9. A process cannot be specialized as it comes out of the
    constructor: [for_batch] raises, for want of measures, and writes
    nothing. *)
Theorem for_batch_after_init (c : class) (i : string) (se : list string) (h h' : heap)
    self g t :
  __init__ c i se h = (Ok self, h') →
  for_batch self g t h' = (Raise (NoMeasures i), h').
Proof.
  rewrite init_run.
  destruct (negb _); [done|]. destruct (negb _); [done|].
  intros [= <- <-].
  set (l1 := fresh (dom h)).
  set (h1 := <[l1 := MatrixObject (DesignMatrix.new se se)]> h).
  set (l2 := fresh (dom h1)).
  set (h2 := <[l2 := MatrixObject (DesignMatrix.new [] se)]> h1).
  set (l3 := fresh (dom h2)).
  set (h3 := <[l3 := MatrixObject (DesignMatrix.new se (dynamic_state_elements c se))]> h2).
  set (l4 := fresh (dom h3)).
  set (p := {| cls := c; id := i; state_elements := se; transition_mat := l1;
               measure_mat := l2; variance_multi_mat := l3; batch_info := None |}).
  pose proof (fresh_lookup h2) as F3. fold l3 in F3.
  pose proof (fresh_lookup h3) as F4. fold l4 in F4.
  unfold h2 in F3. apply lookup_insert_None in F3 as [_ N32].
  unfold h3, h2 in F4. apply lookup_insert_None in F4 as [F4 N43].
  apply lookup_insert_None in F4 as [_ N42].
  apply (for_batch_no_measures _ l4 g t p (DesignMatrix.new [] se)).
  - apply lookup_insert_eq.
  - simpl. unfold h3, h2. rewrite !lookup_insert_ne by done. apply lookup_insert_eq.
  - done.
Qed.

(** *** Registrations *)

(** What a registration of a measure leaves behind: the heap as it was, or
    the heap with the measure matrix of the process replaced. *)
Lemma set_measure_outcome (h h1 : heap) self p measure se v il force r :
  h !! self = Some (ProcessObject p) →
  _set_measure self measure se v il force h = (r, h1) →
  h1 = h ∨ ∃ mm mm', h !! measure_mat p = Some (MatrixObject mm) ∧
                     h1 = <[measure_mat p := MatrixObject mm']> h.
Proof.
  intros Hp. unfold _set_measure.
  rewrite bind_run, (get_process_run h self p Hp), bind_run.
  destruct (h !! measure_mat p) as [[q|mm]|] eqn:Hmm.
  - unfold get_matrix. rewrite Hmm. intros [= <- <-]. by left.
  - rewrite (get_matrix_run h _ mm Hmm), bind_run. unfold lift at 1.
    destruct (DesignMatrix.assign mm measure se v force) as [mm1|e] eqn:Ha.
    + rewrite bind_run. unfold put at 1. rewrite bind_run. unfold lift at 1.
      destruct (DesignMatrix.set_ilink mm1 measure se il force) as [mm2|e] eqn:Hl.
      * unfold put. intros [= <- <-]. right. exists mm, mm2.
        split; [done|]. by rewrite insert_insert_eq.
      * intros [= <- <-]. right. by exists mm, mm1.
    + intros [= <- <-]. by left.
  - unfold get_matrix. rewrite Hmm. intros [= <- <-]. by left.
Qed.

Lemma set_transition_outcome (h h1 : heap) self p from_element to_element v il force r :
  h !! self = Some (ProcessObject p) →
  _set_transition self from_element to_element v il force h = (r, h1) →
  h1 = h ∨ ∃ tm tm', h !! transition_mat p = Some (MatrixObject tm) ∧
                     h1 = <[transition_mat p := MatrixObject tm']> h.
Proof.
  intros Hp. unfold _set_transition.
  rewrite bind_run, (get_process_run h self p Hp), bind_run.
  destruct (h !! transition_mat p) as [[q|tm]|] eqn:Htm.
  - unfold get_matrix. rewrite Htm. intros [= <- <-]. by left.
  - rewrite (get_matrix_run h _ tm Htm), bind_run. unfold lift at 1.
    destruct (DesignMatrix.assign tm to_element from_element v force) as [tm1|e] eqn:Ha.
    + rewrite bind_run. unfold put at 1. rewrite bind_run. unfold lift at 1.
      destruct (DesignMatrix.set_ilink tm1 to_element from_element il force)
        as [tm2|e] eqn:Hl.
      * unfold put. intros [= <- <-]. right. exists tm, tm2.
        split; [done|]. by rewrite insert_insert_eq.
      * intros [= <- <-]. right. by exists tm, tm1.
    + intros [= <- <-]. by left.
  - unfold get_matrix. rewrite Htm. intros [= <- <-]. by left.
Qed.

(** X10. Registering a measure writes the measure matrix of the process
    and nothing else, and assigning a transition writes its transition
    matrix and nothing else, whether they return or raise: the process
    object and every other object of the heap are as they were. *)
Theorem registrations_write_one_matrix (h : heap) self p :
  h !! self = Some (ProcessObject p) →
  (∀ measure se v il force r h1,
     _set_measure self measure se v il force h = (r, h1) →
     h1 !! self = Some (ProcessObject p) ∧
     ∀ l, l ≠ measure_mat p → h1 !! l = h !! l) ∧
  (∀ from_element to_element v il force r h1,
     _set_transition self from_element to_element v il force h = (r, h1) →
     h1 !! self = Some (ProcessObject p) ∧
     ∀ l, l ≠ transition_mat p → h1 !! l = h !! l).
Proof.
  intros Hp. split.
  - intros measure se v il force r h1 E.
    destruct (set_measure_outcome h h1 self p _ _ _ _ _ _ Hp E)
      as [->|(mm & mm' & Hmm & ->)]; [done|].
    split; [|intros l Hl; by rewrite lookup_insert_ne].
    rewrite lookup_insert_ne; [done|]. intros Heq. rewrite Heq, Hp in Hmm. done.
  - intros from_element to_element v il force r h1 E.
    destruct (set_transition_outcome h h1 self p _ _ _ _ _ _ Hp E)
      as [->|(tm & tm' & Htm & ->)]; [done|].
    split; [|intros l Hl; by rewrite lookup_insert_ne].
    rewrite lookup_insert_ne; [done|]. intros Heq. rewrite Heq, Hp in Htm. done.
Qed.

(** *** Copies *)

(** [for_batch] that returns, with the heap it leaves written out. *)
Lemma for_batch_result (h h' : heap) self g t fb :
  for_batch self g t h = (Ok fb, h') →
  ∃ p tm mm vm lv lm lt,
    h !! self = Some (ProcessObject p) ∧
    h !! transition_mat p = Some (MatrixObject tm) ∧
    h !! measure_mat p = Some (MatrixObject mm) ∧
    h !! variance_multi_mat p = Some (MatrixObject vm) ∧
    DesignMatrix.measures mm ≠ [] ∧ DesignMatrix.empty tm = false ∧
    h !! fb = None ∧ h !! lv = None ∧ h !! lm = None ∧ h !! lt = None ∧
    fb ≠ lv ∧ fb ≠ lm ∧ fb ≠ lt ∧ lv ≠ lm ∧ lv ≠ lt ∧ lm ≠ lt ∧
    h' = <[fb := ProcessObject
                   {| cls := cls p; id := id p; state_elements := state_elements p;
                      transition_mat := lt; measure_mat := lm; variance_multi_mat := lv;
                      batch_info := Some (g, t) |}]>
           (<[lt := MatrixObject (DesignMatrix.for_batch tm g t)]>
              (<[lm := MatrixObject (DesignMatrix.for_batch mm g t)]>
                 (<[lv := MatrixObject (DesignMatrix.for_batch vm g t)]> h))).
Proof.
  intros E.
  destruct (for_batch_Ok_inv h h' self g t fb E)
    as (p & tm & mm & vm & Hp & Htm & Hmm & Hvm & Hsome & Hfull).
  destruct (for_batch_run h self g t p tm mm vm Hp Htm Hmm Hvm Hsome Hfull)
    as (fb' & lv & lm & lt & Ffb & Flv & Flm & Flt & Hnd & E').
  rewrite E in E'. injection E' as -> ->.
  apply NoDup_cons in Hnd as [Nfb Hnd]. apply NoDup_cons in Hnd as [Nlv Hnd].
  apply NoDup_cons in Hnd as [Nlm _].
  rewrite !elem_of_cons, elem_of_nil in Nfb. rewrite !elem_of_cons, elem_of_nil in Nlv.
  rewrite !elem_of_cons, elem_of_nil in Nlm.
  exists p, tm, mm, vm, lv, lm, lt. repeat split; try done; intuition congruence.
Qed.

(** X11. A process that was specialized once can be specialized again,
    for any batch shape: the second call returns as well, with a copy at
    another address whose three matrices are other objects than those of
    the first copy, and it leaves the first copy and its matrices as they
    were. *)
Theorem for_batch_again (h h1 : heap) self g t fb1 g' t' :
  for_batch self g t h = (Ok fb1, h1) →
  ∃ fb2 h2 q1 q2,
    for_batch self g' t' h1 = (Ok fb2, h2) ∧ fb2 ≠ fb1 ∧
    h1 !! fb1 = Some (ProcessObject q1) ∧ h2 !! fb1 = Some (ProcessObject q1) ∧
    h2 !! fb2 = Some (ProcessObject q2) ∧
    batch_info q1 = Some (g, t) ∧ batch_info q2 = Some (g', t') ∧
    transition_mat q2 ≠ transition_mat q1 ∧ measure_mat q2 ≠ measure_mat q1 ∧
    variance_multi_mat q2 ≠ variance_multi_mat q1 ∧
    h2 !! transition_mat q1 = h1 !! transition_mat q1 ∧
    h2 !! measure_mat q1 = h1 !! measure_mat q1 ∧
    h2 !! variance_multi_mat q1 = h1 !! variance_multi_mat q1.
Proof.
  intros E.
  destruct (for_batch_result h h1 self g t fb1 E)
    as (p & tm & mm & vm & lv & lm & lt & Hp & Htm & Hmm & Hvm & Hsome & Hfull
        & Ffb & Flv & Flm & Flt & N1 & N2 & N3 & N4 & N5 & N6 & ->).
  set (q1 := {| cls := cls p; id := id p; state_elements := state_elements p;
                transition_mat := lt; measure_mat := lm; variance_multi_mat := lv;
                batch_info := Some (g, t) |}).
  set (h1 := <[fb1 := ProcessObject q1]>
               (<[lt := MatrixObject (DesignMatrix.for_batch tm g t)]>
                  (<[lm := MatrixObject (DesignMatrix.for_batch mm g t)]>
                     (<[lv := MatrixObject (DesignMatrix.for_batch vm g t)]> h)))).
  assert (∀ l o, h !! l = Some o → h1 !! l = Some o) as Hframe.
  { intros l o Ho. unfold h1.
    rewrite !lookup_insert_ne; [done|..]; intros Heq; subst l; congruence. }
  assert (h1 !! fb1 = Some (ProcessObject q1)) as Hq1 by apply lookup_insert_eq.
  assert (h1 !! lt = Some (MatrixObject (DesignMatrix.for_batch tm g t))) as Hlt.
  { unfold h1. rewrite lookup_insert_ne by done. apply lookup_insert_eq. }
  assert (h1 !! lm = Some (MatrixObject (DesignMatrix.for_batch mm g t))) as Hlm.
  { unfold h1. rewrite !(lookup_insert_ne _ _ lm) by done. apply lookup_insert_eq. }
  assert (h1 !! lv = Some (MatrixObject (DesignMatrix.for_batch vm g t))) as Hlv.
  { unfold h1. rewrite !(lookup_insert_ne _ _ lv) by done. apply lookup_insert_eq. }
  destruct (for_batch_run h1 self g' t' p tm mm vm
              (Hframe _ _ Hp) (Hframe _ _ Htm) (Hframe _ _ Hmm) (Hframe _ _ Hvm) Hsome Hfull)
    as (fb2 & lv2 & lm2 & lt2 & Ffb2 & Flv2 & Flm2 & Flt2 & Hnd & E2).
  apply NoDup_cons in Hnd as [Nfb Hnd]. apply NoDup_cons in Hnd as [Nlv Hnd].
  apply NoDup_cons in Hnd as [Nlm _].
  rewrite !elem_of_cons, elem_of_nil in Nfb. rewrite !elem_of_cons, elem_of_nil in Nlv.
  rewrite !elem_of_cons, elem_of_nil in Nlm.
  eexists fb2, _, q1, _. split; [exact E2|].
  assert (∀ l o, h1 !! l = Some o → l ≠ fb2 ∧ l ≠ lt2 ∧ l ≠ lm2 ∧ l ≠ lv2) as Hold.
  { intros l o Ho. repeat split; intros Heq; subst l; congruence. }
  destruct (Hold _ _ Hq1) as (? & ? & ? & ?). destruct (Hold _ _ Hlt) as (? & ? & ? & ?).
  destruct (Hold _ _ Hlm) as (? & ? & ? & ?). destruct (Hold _ _ Hlv) as (? & ? & ? & ?).
  rewrite lookup_insert_eq. simpl.
  repeat split; try done; try congruence.
  all: by rewrite !lookup_insert_ne by done.
Qed.

(** X12. After [for_batch], the process and its copy share no matrix: a
    measure registered or a transition assigned on the process afterwards
    leaves the copy and its three matrices as they were, and one made on
    the copy leaves the process and its three matrices as they were. *)
Theorem registrations_spare_the_copy (h h1 : heap) self g t fb :
  for_batch self g t h = (Ok fb, h1) →
  ∃ p q,
    h1 !! self = Some (ProcessObject p) ∧ h1 !! fb = Some (ProcessObject q) ∧
    (∀ measure se v il force r h2,
       _set_measure self measure se v il force h1 = (r, h2) →
       h2 !! fb = Some (ProcessObject q) ∧
       h2 !! transition_mat q = h1 !! transition_mat q ∧
       h2 !! measure_mat q = h1 !! measure_mat q ∧
       h2 !! variance_multi_mat q = h1 !! variance_multi_mat q) ∧
    (∀ from_element to_element v il force r h2,
       _set_transition self from_element to_element v il force h1 = (r, h2) →
       h2 !! fb = Some (ProcessObject q) ∧
       h2 !! transition_mat q = h1 !! transition_mat q ∧
       h2 !! measure_mat q = h1 !! measure_mat q ∧
       h2 !! variance_multi_mat q = h1 !! variance_multi_mat q) ∧
    (∀ measure se v il force r h2,
       _set_measure fb measure se v il force h1 = (r, h2) →
       h2 !! self = Some (ProcessObject p) ∧
       h2 !! transition_mat p = h1 !! transition_mat p ∧
       h2 !! measure_mat p = h1 !! measure_mat p ∧
       h2 !! variance_multi_mat p = h1 !! variance_multi_mat p) ∧
    (∀ from_element to_element v il force r h2,
       _set_transition fb from_element to_element v il force h1 = (r, h2) →
       h2 !! self = Some (ProcessObject p) ∧
       h2 !! transition_mat p = h1 !! transition_mat p ∧
       h2 !! measure_mat p = h1 !! measure_mat p ∧
       h2 !! variance_multi_mat p = h1 !! variance_multi_mat p).
Proof.
  intros E.
  destruct (for_batch_result h h1 self g t fb E)
    as (p & tm & mm & vm & lv & lm & lt & Hp & Htm & Hmm & Hvm & Hsome & Hfull
        & Ffb & Flv & Flm & Flt & N1 & N2 & N3 & N4 & N5 & N6 & ->).
  set (q := {| cls := cls p; id := id p; state_elements := state_elements p;
               transition_mat := lt; measure_mat := lm; variance_multi_mat := lv;
               batch_info := Some (g, t) |}).
  set (h1 := <[fb := ProcessObject q]>
               (<[lt := MatrixObject (DesignMatrix.for_batch tm g t)]>
                  (<[lm := MatrixObject (DesignMatrix.for_batch mm g t)]>
                     (<[lv := MatrixObject (DesignMatrix.for_batch vm g t)]> h)))).
  assert (∀ l o, h !! l = Some o →
            h1 !! l = Some o ∧ l ≠ fb ∧ l ≠ lt ∧ l ≠ lm ∧ l ≠ lv) as Hold.
  { intros l o Ho.
    assert (l ≠ fb ∧ l ≠ lt ∧ l ≠ lm ∧ l ≠ lv) as (? & ? & ? & ?)
      by (repeat split; intros Heq; subst l; congruence).
    repeat split; try done. unfold h1. by rewrite !lookup_insert_ne. }
  destruct (Hold _ _ Hp) as (Hp1 & ? & ? & ? & ?).
  destruct (Hold _ _ Htm) as (_ & ? & ? & ? & ?).
  destruct (Hold _ _ Hmm) as (_ & ? & ? & ? & ?).
  destruct (Hold _ _ Hvm) as (_ & ? & ? & ? & ?).
  assert (h1 !! fb = Some (ProcessObject q)) as Hq by apply lookup_insert_eq.
  exists p, q. split; [done|]. split; [done|].
  split; [|split; [|split]].
  - intros measure se v il force r h2 E2.
    destruct (set_measure_outcome h1 h2 self p _ _ _ _ _ _ Hp1 E2)
      as [->|(m1 & m2 & _ & ->)]; [done|].
    simpl. by rewrite !lookup_insert_ne by done.
  - intros from_element to_element v il force r h2 E2.
    destruct (set_transition_outcome h1 h2 self p _ _ _ _ _ _ Hp1 E2)
      as [->|(m1 & m2 & _ & ->)]; [done|].
    simpl. by rewrite !lookup_insert_ne by done.
  - intros measure se v il force r h2 E2.
    destruct (set_measure_outcome h1 h2 fb q _ _ _ _ _ _ Hq E2)
      as [->|(m1 & m2 & _ & ->)]; [done|].
    simpl. by rewrite !lookup_insert_ne by done.
  - intros from_element to_element v il force r h2 E2.
    destruct (set_transition_outcome h1 h2 fb q _ _ _ _ _ _ Hq E2)
      as [->|(m1 & m2 & _ & ->)]; [done|].
    simpl. by rewrite !lookup_insert_ne by done.
Qed.

(** *** The check at class definition, further *)

(** X13. For a subclass that does not override [batch_kwargs] and
    overrides only one of [for_batch] and [initial_state_means_for_batch],
    the two signatures are not compared: the class is defined without
    error exactly when the override has no parameter named [kwargs]; a
    subclass that overrides neither is always defined. *)
Theorem init_subclass_one_override (c : class) :
  ¬ overrides (cls_batch_kwargs c) (cls_batch_kwargs Process) →
  (overrides (cls_for_batch c) (cls_for_batch Process) →
   ¬ overrides (cls_initial_state_means_for_batch c)
       (cls_initial_state_means_for_batch Process) →
   (__init_subclass__ c = Ok () ↔ "kwargs" ∉ keywords (cls_for_batch c))) ∧
  (¬ overrides (cls_for_batch c) (cls_for_batch Process) →
   overrides (cls_initial_state_means_for_batch c)
     (cls_initial_state_means_for_batch Process) →
   (__init_subclass__ c = Ok ()
    ↔ "kwargs" ∉ keywords (cls_initial_state_means_for_batch c))) ∧
  (¬ overrides (cls_for_batch c) (cls_for_batch Process) →
   ¬ overrides (cls_initial_state_means_for_batch c)
       (cls_initial_state_means_for_batch Process) →
   __init_subclass__ c = Ok ()).
Proof.
  unfold overrides, __init_subclass__, code_differs. fold (keywords (cls_for_batch c)).
  fold (keywords (cls_initial_state_means_for_batch c)).
  intros Hbk. rewrite (bool_decide_eq_false_2 _ Hbk). simpl. split; [|split].
  - intros Hfb Him.
    rewrite (bool_decide_eq_true_2 _ Hfb), (bool_decide_eq_false_2 _ Him). simpl.
    by case_bool_decide; split.
  - intros Hfb Him.
    rewrite (bool_decide_eq_false_2 _ Hfb), (bool_decide_eq_true_2 _ Him). simpl.
    by case_bool_decide; split.
  - intros Hfb Him.
    by rewrite (bool_decide_eq_false_2 _ Hfb), (bool_decide_eq_false_2 _ Him).
Qed.


End ProcessMore.

Module ProcessRunsFacts.
Import Process ProcessFacts ProcessRuns ProcessMore.

Lemma constructed_run :
  __init__ Process "trend" ["position"; "velocity"] ∅ = (Ok trend, constructed).
Proof. vm_compute. reflexivity. Qed.

(** X7 on [trend]. *)
Lemma init_allocates_witness :
  ∃ p, constructed !! trend = Some (ProcessObject p) ∧ id p = "trend" ∧
       NoDup [transition_mat p; measure_mat p; variance_multi_mat p; trend].
Proof.
  destruct (init_allocates Process "trend" ["position"; "velocity"] ∅ constructed trend
              constructed_run)
    as (p & Hp & _ & Hid & _ & _ & Hnd & _).
  exists p. split; [exact Hp|]. split; [exact Hid|exact Hnd].
Defined.

(** X8 on [Process] and two state elements. *)
Lemma init_without_fixed_witness :
  (∃ self h', __init__ Process "trend" ["position"; "velocity"] ∅ = (Ok self, h'))
  ↔ NoDup ["position"; "velocity"].
Proof.
  exact (init_without_fixed Process "trend" ["position"; "velocity"] ∅ eq_refl).
Defined.

(** X9 on [trend] as constructed. *)
Lemma for_batch_after_init_witness :
  for_batch trend 3 5 constructed = (Raise (NoMeasures "trend"), constructed).
Proof.
  exact (for_batch_after_init Process "trend" ["position"; "velocity"] ∅ constructed
           trend 3 5 constructed_run).
Defined.

(** X10 on the registration of the measure of [trend]. *)
Lemma registrations_write_one_matrix_witness :
  measured !! trend = Some (ProcessObject trend_attributes) ∧
  ∀ l, l ≠ measure_mat trend_attributes → measured !! l = constructed !! l.
Proof.
  destruct (registrations_write_one_matrix constructed trend trend_attributes
              constructed_trend) as [Hmeasure _].
  exact (Hmeasure _ _ _ _ _ _ _ measured_run).
Defined.

(** X11 on [trend], for a second batch shape. *)
Lemma for_batch_again_witness :
  ∃ fb2 h2, for_batch trend 7 2 specialized = (Ok fb2, h2) ∧ fb2 ≠ trend_for_batch.
Proof.
  destruct (for_batch_again complete specialized trend 3 5 trend_for_batch 7 2
              specialized_run) as (fb2 & h2 & q1 & q2 & E & Hne & _).
  exists fb2, h2. split; [exact E|exact Hne].
Defined.

(** X12 on [trend] and its copy. *)
Lemma registrations_spare_the_copy_witness :
  ∃ p q, specialized !! trend = Some (ProcessObject p) ∧
         specialized !! trend_for_batch = Some (ProcessObject q).
Proof.
  destruct (registrations_spare_the_copy complete specialized trend 3 5 trend_for_batch
              specialized_run) as (p & q & Hp & Hq & _).
  exists p, q. split; [exact Hp|exact Hq].
Defined.

Lemma Regression_inherits_batch_kwargs :
  ¬ overrides (cls_batch_kwargs Regression) (cls_batch_kwargs Process).
Proof. intros Hne. by apply Hne. Qed.

Lemma Regression_overrides_for_batch :
  overrides (cls_for_batch Regression) (cls_for_batch Process).
Proof. intros Heq. discriminate Heq. Qed.

Lemma Regression_inherits_initial_state_means :
  ¬ overrides (cls_initial_state_means_for_batch Regression)
      (cls_initial_state_means_for_batch Process).
Proof. intros Hne. by apply Hne. Qed.

Lemma Regression_defined : __init_subclass__ Regression = Ok ().
Proof. vm_compute. reflexivity. Qed.

(** X13 on [Regression], which overrides [for_batch] only. *)
Lemma init_subclass_one_override_witness :
  __init_subclass__ Regression = Ok () ∧ "kwargs" ∉ keywords (cls_for_batch Regression).
Proof.
  destruct (init_subclass_one_override Regression Regression_inherits_batch_kwargs)
    as (Honly & _ & _).
  split; [exact Regression_defined|].
  exact (proj1 (Honly Regression_overrides_for_batch Regression_inherits_initial_state_means)
           Regression_defined).
Defined.


End ProcessRunsFacts.
